(** * Polítíkus: the external-data access layer

    A shallow embedding of [src/services/apiClient.ts] (the transport
    client, [ApiClient.get] and [ApiClient.post]) and of
    [src/services/rssService.ts] (the case repository, [searchCases] and
    [fetchCaseComments]), with the properties of the specification that
    concern them.

    [apiClient.ts] is the client that returns an [ApiResponse] for every call
    ([rssService.ts] reads [res.success] and [res.data]); the older client
    that throws [HttpError] is not the one embedded.

    Further parts of the repository are embedded after these: [fetchCaseById];
    the older client and the REST repository built on it
    ([HttpErrorClient]); the mapping of advices with files ([AdviceFiles]);
    two pure steps of [geminiService.ts] ([Gemini]); and the comparator that
    orders the case list ([CaseLookup]).

    Conventions of the embedding:
    - a JavaScript string is a [string] holding its UTF-8 bytes;
    - a JSON number is an integer ([Z]); the case and comment identifiers of
      the upstream services are integers, and rounding to a double is not
      modelled;
    - [undefined] is [None] in [option Json], [null] is [JNull];
    - an [async] function is a computation in the monad [M], which threads
      the requests issued so far and the console, and may raise. *)

From Stdlib Require Import ZArith List String Ascii Bool Lia DecimalString.
Import ListNotations.
Local Open Scope string_scope.
Local Open Scope Z_scope.
Local Set Warnings "-register-all".

(** ** JSON values and the JavaScript operators applied to them *)

Inductive Json : Type :=
| JNull
| JBool (b : bool)
| JNum (n : Z)
| JStr (s : string)
| JArr (items : list Json)
| JObj (fields : list (string * Json)).

Module Js.

(** A JavaScript value read from a parsed body: [None] is [undefined]. *)
Definition value : Type := option Json.

(** The own property [k] of an object built by [JSON.parse]; of two equal
    keys the later one is kept. *)
Fixpoint lookup_field (k : string) (fs : list (string * Json)) : value :=
  match fs with
  | [] => None
  | (k', v) :: rest =>
      match lookup_field k rest with
      | Some v' => Some v'
      | None => if String.eqb k k' then Some v else None
      end
  end.

(** [v.k] for a value [v] that is neither [null] nor [undefined], and a key
    [k] that is not a built-in property of arrays, strings, numbers or
    booleans (the source reads [data], [cases], [consultationPortalCaseById],
    [consultationPortalAdviceByCaseId], [id], [participantName], [content]
    and [created] only). *)
Definition prop (v : Json) (k : string) : value :=
  match v with
  | JObj fs => lookup_field k fs
  | _ => None
  end.

(** [v?.k] *)
Definition opt_chain (v : value) (k : string) : value :=
  match v with
  | None | Some JNull => None
  | Some j => prop j k
  end.

(** [!!v] *)
Definition truthy (v : value) : bool :=
  match v with
  | None | Some JNull => false
  | Some (JBool b) => b
  | Some (JNum n) => negb (n =? 0)
  | Some (JStr s) => negb (s =? "")%string
  | Some (JArr _) | Some (JObj _) => true
  end.

(** [v ?? d] *)
Definition nullish (v : value) (d : Json) : Json :=
  match v with
  | None | Some JNull => d
  | Some j => j
  end.

(** [v || d] *)
Definition or_else (v : value) (d : Json) : Json :=
  match v with
  | Some j => if truthy v then j else d
  | None => d
  end.

(** [String(n)] for an integer [n]. *)
Definition String_of_Z (n : Z) : string := NilZero.string_of_int (Z.to_int n).

(** *** [Number.parseInt(s, 10)] *)

Definition code (c : ascii) : N := N_of_ascii c.

Definition is_digit (c : ascii) : bool := (48 <=? code c)%N && (code c <=? 57)%N.

Definition digit_value (c : ascii) : Z := Z.of_N (code c) - 48.

(** White space and line terminators of one, two and three UTF-8 bytes:
    U+0009..U+000D and U+0020; U+00A0; U+1680, U+2000..U+200A, U+2028,
    U+2029, U+202F, U+205F, U+3000 and U+FEFF. *)
Definition is_space1 (c : ascii) : bool :=
  ((9 <=? code c)%N && (code c <=? 13)%N) || (code c =? 32)%N.

Definition is_space2 (c1 c2 : ascii) : bool :=
  (code c1 =? 194)%N && (code c2 =? 160)%N.

Definition is_space3 (c1 c2 c3 : ascii) : bool :=
  let a := code c1 in let b := code c2 in let c := code c3 in
  ((a =? 225) && (b =? 154) && (c =? 128))%N
  || ((a =? 226) && (b =? 128) && ((128 <=? c) && (c <=? 138)))%N
  || ((a =? 226) && (b =? 128) && ((c =? 168) || (c =? 169) || (c =? 175)))%N
  || ((a =? 226) && (b =? 129) && (c =? 159))%N
  || ((a =? 227) && (b =? 128) && (c =? 128))%N
  || ((a =? 239) && (b =? 187) && (c =? 191))%N.

(** The input with its leading white space removed. *)
Fixpoint trimStart (s : string) : string :=
  match s with
  | EmptyString => s
  | String c1 r1 =>
      if is_space1 c1 then trimStart r1
      else match r1 with
           | EmptyString => s
           | String c2 r2 =>
               if is_space2 c1 c2 then trimStart r2
               else match r2 with
                    | EmptyString => s
                    | String c3 r3 =>
                        if is_space3 c1 c2 c3 then trimStart r3 else s
                    end
           end
  end.

(** The value of the longest prefix of decimal digits, read after [acc]. *)
Fixpoint digits_value (acc : Z) (s : string) : Z :=
  match s with
  | String c r => if is_digit c then digits_value (10 * acc + digit_value c) r else acc
  | EmptyString => acc
  end.

(** The digits, when there is at least one; [None] is [NaN]. *)
Definition parse_digits (s : string) : option Z :=
  match s with
  | String c _ => if is_digit c then Some (digits_value 0 s) else None
  | EmptyString => None
  end.

Definition parseInt (s : string) : option Z :=
  match trimStart s with
  | String "-" r => option_map Z.opp (parse_digits r)
  | String "+" r => parse_digits r
  | t => parse_digits t
  end.

End Js.

(** ** [JSON.stringify] on JSON values *)

Module JSON.

Definition hex_lower (n : N) : ascii :=
  if (n <? 10)%N then ascii_of_N (48 + n) else ascii_of_N (87 + n).

(** One character of a string literal: the quote, the backslash and the
    control characters are escaped. *)
Definition escape (c : ascii) : string :=
  let n := Js.code c in
  if (n =? 34)%N then String "\" (String c "")
  else if (n =? 92)%N then String "\" (String c "")
  else if (n =? 8)%N then "\b"
  else if (n =? 9)%N then "\t"
  else if (n =? 10)%N then "\n"
  else if (n =? 12)%N then "\f"
  else if (n =? 13)%N then "\r"
  else if (n <? 32)%N then "\u00" ++ String (hex_lower (n / 16)) (String (hex_lower (n mod 16)) "")
  else String c "".

Fixpoint escape_all (s : string) : string :=
  match s with
  | EmptyString => EmptyString
  | String c r => escape c ++ escape_all r
  end.

Definition quote (s : string) : string :=
  String "034" (escape_all s ++ String "034" "").

Fixpoint stringify (j : Json) : string :=
  match j with
  | JNull => "null"
  | JBool true => "true"
  | JBool false => "false"
  | JNum n => Js.String_of_Z n
  | JStr s => quote s
  | JArr items =>
      "[" ++ (fix elements (l : list Json) : string :=
                match l with
                | [] => ""
                | x :: [] => stringify x
                | x :: r => stringify x ++ "," ++ elements r
                end) items ++ "]"
  | JObj fields =>
      "{" ++ (fix members (l : list (string * Json)) : string :=
                match l with
                | [] => ""
                | (k, v) :: [] => quote k ++ ":" ++ stringify v
                | (k, v) :: r => quote k ++ ":" ++ stringify v ++ "," ++ members r
                end) fields ++ "}"
  end.

End JSON.

(** ** Errors, results and the monad of asynchronous computations *)

(** A thrown [Error] object: [fetch], [Response.text] and [Response.json]
    reject with [TypeError], [SyntaxError] or a [DOMException], and the
    source throws [new Error(message)]. *)
Record JsError : Type := mkError { err_name : string; err_message : string }.

Definition Error (message : string) : JsError := mkError "Error" message.

Inductive Result (A : Type) : Type :=
| Return (a : A)
| Throw (e : JsError).
Arguments Return {A} a.
Arguments Throw {A} e.

(** What [fetch] hands back: the status line and what reading the body as text
    or as JSON gives. *)
Record Response : Type := mkResponse {
  resp_status : Z;
  resp_text : JsError + string;
  resp_json : JsError + Json
}.

(** [response.ok] *)
Definition resp_ok (r : Response) : bool :=
  (200 <=? resp_status r) && (resp_status r <=? 299).

(** A response with status [st] whose body is the text of the JSON value [j]. *)
Definition json_response (st : Z) (j : Json) : Response :=
  mkResponse st (inr (JSON.stringify j)) (inr j).

Inductive FetchOutcome : Type :=
| FetchRejects (e : JsError)
| FetchResolves (r : Response).

Record Request : Type := mkRequest {
  req_method : string;
  req_url : string;
  req_headers : list (string * string);
  req_body : option string
}.

(** The network: what a request is answered with, given the requests made
    before it (oldest first). *)
Definition Network : Type := list Request -> Request -> FetchOutcome.

Record LogEntry : Type := mkLog { log_text : string; log_error : option JsError }.

Record World : Type := mkWorld {
  trace : list Request;      (* requests issued, oldest first *)
  console : list LogEntry    (* [console.error] calls, oldest first *)
}.

Definition world0 : World := mkWorld [] [].

Definition M (A : Type) : Type := World -> Result A * World.

Definition ret {A} (a : A) : M A := fun w => (Return a, w).

Definition throw {A} (e : JsError) : M A := fun w => (Throw e, w).

Definition bind {A B} (m : M A) (k : A -> M B) : M B :=
  fun w => match m w with
           | (Return a, w') => k a w'
           | (Throw e, w') => (Throw e, w')
           end.

(** [try { m } catch (error) { handler error }] *)
Definition try_catch {A} (m : M A) (handler : JsError -> M A) : M A :=
  fun w => match m w with
           | (Return a, w') => (Return a, w')
           | (Throw e, w') => handler e w'
           end.

Declare Scope async_scope.
Delimit Scope async_scope with async.
Notation "x <- m ;; k" := (bind m (fun x => k))
  (at level 61, m at next level, right associativity) : async_scope.
Notation "m ;; k" := (bind m (fun _ => k))
  (at level 61, right associativity) : async_scope.
Local Open Scope async_scope.

Definition lift {A} (r : JsError + A) : M A :=
  match r with
  | inl e => throw e
  | inr a => ret a
  end.

Definition fetch (net : Network) (req : Request) : M Response :=
  fun w =>
    let w' := mkWorld (trace w ++ [req]) (console w) in
    match net (trace w) req with
    | FetchRejects e => (Throw e, w')
    | FetchResolves r => (Return r, w')
    end.

Definition console_error (text : string) (e : option JsError) : M unit :=
  fun w => (Return tt, mkWorld (trace w) (console w ++ [mkLog text e])).

(** ** The transport client ([src/services/apiClient.ts]) *)

Record ApiError : Type := mkApiError { message : string; body : string }.

(** [ApiResponse<T>]: [data] is [JNull] for [null]; [error] is [None] when the
    field is absent. *)
Record ApiResponse : Type := mkApiResponse {
  success : bool;
  data : Json;
  status : Z;
  error : option ApiError
}.

(** [RequestParams]: the values of a parameter map. *)
Inductive ParamValue : Type :=
| PStr (s : string)
| PNum (n : Z).

Definition String_of_param (v : ParamValue) : string :=
  match v with
  | PStr s => s
  | PNum n => Js.String_of_Z n
  end.

Module URLSearchParams.

Definition hex_digit (n : N) : ascii :=
  if (n <? 10)%N then ascii_of_N (48 + n) else ascii_of_N (55 + n).

(** Letters, digits and [* - . _] are kept. *)
Definition unreserved (c : ascii) : bool :=
  let n := Js.code c in
  ((48 <=? n) && (n <=? 57) || (65 <=? n) && (n <=? 90) || (97 <=? n) && (n <=? 122)
   || (n =? 42) || (n =? 45) || (n =? 46) || (n =? 95))%N.

Fixpoint encode (s : string) : string :=
  match s with
  | EmptyString => EmptyString
  | String c r =>
      if unreserved c then String c (encode r)
      else if (Js.code c =? 32)%N then String "+" (encode r)
      else String "%" (String (hex_digit (Js.code c / 16))
                         (String (hex_digit (Js.code c mod 16)) (encode r)))
  end.

(** [query.toString()] after the pairs were appended in order. *)
Fixpoint toString (pairs : list (string * string)) : string :=
  match pairs with
  | [] => ""
  | [(k, v)] => encode k ++ "=" ++ encode v
  | (k, v) :: rest => encode k ++ "=" ++ encode v ++ "&" ++ toString rest
  end.

End URLSearchParams.

Record ApiClient : Type := mkApiClient { proxyUrl : string; baseUrl : string }.

Definition CORS_PROXY_URL : string := "https://corsproxy.io/?".
Definition API_BASE_URL : string := "https://samradapi.island.is".

Definition apiClient : ApiClient := mkApiClient CORS_PROXY_URL API_BASE_URL.

Definition NETWORK_MESSAGE : string :=
  "Ekki tókst að ná sambandi við vefþjónustu. Athugaðu netenginguna þína.".

Definition http_message (st : Z) : string :=
  "Villa í netsamskiptum við vefþjónustu (HTTP " ++ Js.String_of_Z st ++ ").".

Definition http_failure (st : Z) (errorBody : string) : ApiResponse :=
  mkApiResponse false JNull st (Some (mkApiError (http_message st) errorBody)).

Definition network_failure (e : JsError) : ApiResponse :=
  mkApiResponse false JNull 0 (Some (mkApiError NETWORK_MESSAGE (err_message e))).

Definition GET_HEADERS : list (string * string) :=
  [("Accept", "application/json");
   ("Cache-Control", "no-cache, no-store, must-revalidate");
   ("Pragma", "no-cache");
   ("Expires", "0")].

Definition POST_HEADERS : list (string * string) :=
  [("Content-Type", "application/json");
   ("Accept", "application/json")].

(** The URL that [get] calls; [params] lists the own properties of the
    parameter object in the order [for ... in] visits them. *)
Definition get_url (this : ApiClient) (endpoint : string)
    (params : list (string * ParamValue)) : string :=
  let queryString :=
    URLSearchParams.toString (map (fun kv => (fst kv, String_of_param (snd kv))) params) in
  let targetUrl :=
    baseUrl this ++ endpoint ++ (if (queryString =? "")%string then "" else "?" ++ queryString) in
  proxyUrl this ++ targetUrl.

Definition get (net : Network) (this : ApiClient) (endpoint : string)
    (params : list (string * ParamValue)) : M ApiResponse :=
  let finalApiUrl := get_url this endpoint params in
  try_catch
    (response <- fetch net (mkRequest "GET" finalApiUrl GET_HEADERS None) ;;
     if negb (resp_ok response) then
       errorBody <- lift (resp_text response) ;;
       console_error ("HTTP error! status: " ++ Js.String_of_Z (resp_status response)
                      ++ ", endpoint: " ++ endpoint ++ ", body: " ++ errorBody) None ;;
       ret (http_failure (resp_status response) errorBody)
     else
       data <- lift (resp_json response) ;;
       ret (mkApiResponse true data (resp_status response) None))
    (fun error =>
       console_error ("Network or fetch error for endpoint " ++ endpoint ++ ":") (Some error) ;;
       ret (network_failure error)).

(** [body] is a JSON tree, which [JSON.stringify] always serialises. *)
Definition post (net : Network) (this : ApiClient) (url : string) (body : Json)
    : M ApiResponse :=
  let finalApiUrl := proxyUrl this ++ url in
  try_catch
    (response <- fetch net (mkRequest "POST" finalApiUrl POST_HEADERS (Some (JSON.stringify body))) ;;
     if negb (resp_ok response) then
       errorBody <- lift (resp_text response) ;;
       console_error ("HTTP error! status: " ++ Js.String_of_Z (resp_status response)
                      ++ ", url: " ++ url ++ ", body: " ++ errorBody) None ;;
       ret (http_failure (resp_status response) errorBody)
     else
       data <- lift (resp_json response) ;;
       ret (mkApiResponse true data (resp_status response) None))
    (fun error =>
       console_error ("Network or fetch error for url " ++ url ++ ":") (Some error) ;;
       ret (network_failure error)).

(** ** The case repository ([src/services/rssService.ts]) *)

Record Attachment : Type := mkAttachment {
  attachment_id : string;
  name : string;
  fileType : string
}.

(** [CaseComment] as it is at run time: the fields copied from the upstream
    record hold whatever the record holds. *)
Module CaseComment.
Record t : Type := mk {
  id : Js.value;
  caseId : Z;
  contact : Json;
  comment : Json;
  created : Js.value;
  attachments : list Attachment
}.
End CaseComment.

Definition CASE_LIST_MESSAGE : string := "Gat ekki sótt málalista.".
Definition COMMENTS_MESSAGE : string := "Gat ekki sótt umsagnir fyrir mál.".
Definition INVALID_ID_MESSAGE : string := "A valid numeric case ID is required.".
Definition NO_COMMENT_PLACEHOLDER : string := "Engin athugasemd fylgdi.".

(** [res.data?.cases || []], the value [searchCases] returns. *)
Definition searchCases (net : Network) : M Json :=
  let params := [("pageSize", PStr "1500"); ("orderBy", PStr "LastUpdated")] in
  res <- get net apiClient "/api/cases" params ;;
  if negb (success res) then throw (Error CASE_LIST_MESSAGE)
  else ret (Js.or_else (Js.opt_chain (Some (data res)) "cases") (JArr [])).

Definition GET_CASE_META : string := "
query CaseMeta($input: ConsultationPortalCaseInput!) {
  consultationPortalCaseById(input: $input) {
    id
  }
}
".

Definition GET_CASE_ADVICES_MINIMAL : string := "
query CaseAdvices($input: ConsultationPortalCaseInput!) {
  consultationPortalAdviceByCaseId(input: $input) {
    id
    participantName
    content
    created
  }
}
".

Definition GRAPHQL_ENDPOINT : string := "https://island.is/api/graphql".

Definition graphql_body (query : string) (variables : Json) (operationName : string) : Json :=
  JObj [("query", JStr query); ("variables", variables); ("operationName", JStr operationName)].

Definition postGraphQL (net : Network) (query : string) (variables : Json)
    (operationName : string) : M ApiResponse :=
  post net apiClient GRAPHQL_ENDPOINT (graphql_body query variables operationName).

(** [{ input: { caseId } }] *)
Definition case_input (caseId : Z) : Json :=
  JObj [("input", JObj [("caseId", JNum caseId)])].

(** The callback of [items.map]: reading a property of [null] raises a
    [TypeError] (its text is the engine's). *)
Definition toCaseComment (caseId : Z) (a : Json) : Result CaseComment.t :=
  match a with
  | JNull => Throw (mkError "TypeError" "Cannot read properties of null (reading 'id')")
  | _ =>
      Return (CaseComment.mk
                (Js.prop a "id")
                caseId
                (Js.nullish (Js.prop a "participantName") (JStr ""))
                (Js.or_else (Js.prop a "content") (JStr NO_COMMENT_PLACEHOLDER))
                (Js.prop a "created")
                [])
  end.

(** [items.map(f)] for a callback that may raise. *)
Fixpoint array_map {A B} (f : A -> Result B) (items : list A) : Result (list B) :=
  match items with
  | [] => Return []
  | a :: rest =>
      match f a with
      | Throw e => Throw e
      | Return b =>
          match array_map f rest with
          | Throw e => Throw e
          | Return bs => Return (b :: bs)
          end
      end
  end.

Definition of_result {A} (r : Result A) : M A := fun w => (r, w).

(** [!!meta.data?.data?.consultationPortalCaseById?.id] *)
Definition case_found (meta : ApiResponse) : bool :=
  Js.truthy
    (Js.opt_chain
       (Js.opt_chain (Js.opt_chain (Some (data meta)) "data") "consultationPortalCaseById")
       "id").

(** [adv.data?.data?.consultationPortalAdviceByCaseId ?? []] *)
Definition advice_items (adv : ApiResponse) : Json :=
  Js.nullish
    (Js.opt_chain (Js.opt_chain (Some (data adv)) "data") "consultationPortalAdviceByCaseId")
    (JArr []).

Definition fetchCaseComments (net : Network) (id : string) : M (list CaseComment.t) :=
  match Js.parseInt id with
  | None => throw (Error INVALID_ID_MESSAGE)
  | Some caseId =>
      meta <- postGraphQL net GET_CASE_META (case_input caseId) "CaseMeta" ;;
      if negb (success meta) then throw (Error COMMENTS_MESSAGE)
      else if negb (case_found meta) then ret []
      else
        adv <- postGraphQL net GET_CASE_ADVICES_MINIMAL (case_input caseId) "CaseAdvices" ;;
        if negb (success adv) then throw (Error COMMENTS_MESSAGE)
        else
          match advice_items adv with
          | JArr (a :: rest) => of_result (array_map (toCaseComment caseId) (a :: rest))
          | _ => ret []
          end
  end.

(** ** The two operations of the transport client, taken together *)

Inductive Call : Type :=
| CallGet (endpoint : string) (params : list (string * ParamValue))
| CallPost (url : string) (body : Json).

Definition call (net : Network) (this : ApiClient) (c : Call) : M ApiResponse :=
  match c with
  | CallGet endpoint params => get net this endpoint params
  | CallPost url body => post net this url body
  end.

(** The request a call hands to [fetch]. *)
Definition call_request (this : ApiClient) (c : Call) : Request :=
  match c with
  | CallGet endpoint params => mkRequest "GET" (get_url this endpoint params) GET_HEADERS None
  | CallPost url body => mkRequest "POST" (proxyUrl this ++ url) POST_HEADERS (Some (JSON.stringify body))
  end.

(** The outcome a call returns, by what [fetch] answered. *)
Definition outcome_of (o : FetchOutcome) : ApiResponse :=
  match o with
  | FetchRejects e => network_failure e
  | FetchResolves r =>
      if resp_ok r then
        match resp_json r with
        | inr d => mkApiResponse true d (resp_status r) None
        | inl e => network_failure e
        end
      else
        match resp_text r with
        | inr s => http_failure (resp_status r) s
        | inl e => network_failure e
        end
  end.

Definition http_log (c : Call) (r : Response) (errorBody : string) : LogEntry :=
  match c with
  | CallGet endpoint _ =>
      mkLog ("HTTP error! status: " ++ Js.String_of_Z (resp_status r)
             ++ ", endpoint: " ++ endpoint ++ ", body: " ++ errorBody) None
  | CallPost url _ =>
      mkLog ("HTTP error! status: " ++ Js.String_of_Z (resp_status r)
             ++ ", url: " ++ url ++ ", body: " ++ errorBody) None
  end.

Definition network_log (c : Call) (e : JsError) : LogEntry :=
  match c with
  | CallGet endpoint _ => mkLog ("Network or fetch error for endpoint " ++ endpoint ++ ":") (Some e)
  | CallPost url _ => mkLog ("Network or fetch error for url " ++ url ++ ":") (Some e)
  end.

(** What a call writes to the console. *)
Definition call_logs (c : Call) (o : FetchOutcome) : list LogEntry :=
  match o with
  | FetchRejects e => [network_log c e]
  | FetchResolves r =>
      if resp_ok r then
        match resp_json r with
        | inr _ => []
        | inl e => [network_log c e]
        end
      else
        match resp_text r with
        | inr s => [http_log c r s]
        | inl e => [network_log c e]
        end
  end.

(** The payload and the failure record of an outcome are populated one
    without the other. *)
Definition exactly_one_populated (r : ApiResponse) : Prop :=
  (success r = true /\ data r <> JNull /\ error r = None)
  \/ (success r = false /\ data r = JNull /\ error r <> None).

(** ** Example networks and the vocabulary of the properties *)

(** A network that answers every request with status 200 and the body [null]. *)
Definition null_body_network : Network :=
  fun _ _ => FetchResolves (json_response 200 JNull).

(** A network that answers every request with status 404 and a text body. *)
Definition not_found_network : Network :=
  fun _ _ => FetchResolves (mkResponse 404 (inr "Not Found") (inl (mkError "SyntaxError" "Unexpected token N"))).

Definition unparseable_network : Network :=
  fun _ _ => FetchResolves (mkResponse 200 (inr "<html>") (inl (mkError "SyntaxError" "Unexpected token <"))).

Definition unreachable_network : Network :=
  fun _ _ => FetchRejects (mkError "TypeError" "Failed to fetch").

(** The two GraphQL requests of [fetchCaseComments]. *)
Definition meta_call (caseId : Z) : Call :=
  CallPost GRAPHQL_ENDPOINT (graphql_body GET_CASE_META (case_input caseId) "CaseMeta").

Definition advices_call (caseId : Z) : Call :=
  CallPost GRAPHQL_ENDPOINT (graphql_body GET_CASE_ADVICES_MINIMAL (case_input caseId) "CaseAdvices").

Definition meta_request (caseId : Z) : Request := call_request apiClient (meta_call caseId).

Definition advices_request (caseId : Z) : Request := call_request apiClient (advices_call caseId).



(** A GraphQL call that succeeded at the transport level: a 2xx response
    whose body parses to [envelope]. *)
Definition graphql_ok (net : Network) (history : list Request) (req : Request)
    (envelope : Json) : Prop :=
  exists resp, net history req = FetchResolves resp
               /\ 200 <= resp_status resp <= 299
               /\ resp_json resp = inr envelope.

(** [envelope.data?.consultationPortalCaseById] *)
Definition reported_case (envelope : Json) : Js.value :=
  Js.opt_chain (Js.opt_chain (Some envelope) "data") "consultationPortalCaseById".

(** [envelope.data?.consultationPortalAdviceByCaseId] *)
Definition reported_advices (envelope : Json) : Js.value :=
  Js.opt_chain (Js.opt_chain (Some envelope) "data") "consultationPortalAdviceByCaseId".

(** The case is reported absent: it is [null], or it has no [id] (none, or
    [null]). *)
Definition case_absent (envelope : Json) : Prop :=
  reported_case envelope = Some JNull
  \/ Js.opt_chain (reported_case envelope) "id" = None
  \/ Js.opt_chain (reported_case envelope) "id" = Some JNull.

(** The case is reported with an id the code takes as present. *)
Definition case_present (envelope : Json) : Prop :=
  Js.truthy (Js.opt_chain (reported_case envelope) "id") = true.

(** The envelope carries a populated [errors] array and no [data]. *)
Definition errors_without_data (envelope : Json) : Prop :=
  (exists e es, Js.prop envelope "errors" = Some (JArr (e :: es)))
  /\ (Js.prop envelope "data" = None \/ Js.prop envelope "data" = Some JNull).

(** A network for a case that exists and has no submissions. *)
Definition zero_submissions_network : Network :=
  fun history _ =>
    match history with
    | [] => FetchResolves
              (json_response 200
                 (JObj [("data", JObj [("consultationPortalCaseById", JObj [("id", JNum 42)])])]))
    | _ => FetchResolves
             (json_response 200
                (JObj [("data", JObj [("consultationPortalAdviceByCaseId", JArr [])])]))
    end.

(** A network whose case lookup reports no such case. *)
Definition absent_case_network : Network :=
  fun _ _ => FetchResolves (json_response 200 (JObj [("data", JObj [("consultationPortalCaseById", JNull)])])).

(** A network that rejects every operation the GraphQL way: status 200, an
    [errors] array and no [data]. *)
Definition rejected_envelope : Json :=
  JObj [("errors",
         JArr [JObj [("message", JStr "Internal server error");
                     ("extensions", JObj [("code", JStr "INTERNAL_SERVER_ERROR")])]])].

Definition graphql_errors_network : Network :=
  fun _ _ => FetchResolves (json_response 200 rejected_envelope).

(** The comment [c] is what the upstream record [a] maps to for the case
    [caseId]. *)
Definition mapped_from (caseId : Z) (a : Json) (c : CaseComment.t) : Prop :=
  CaseComment.caseId c = caseId
  /\ CaseComment.attachments c = []
  /\ CaseComment.id c = Js.prop a "id"
  /\ CaseComment.created c = Js.prop a "created"
  /\ (Js.prop a "participantName" = None \/ Js.prop a "participantName" = Some JNull ->
      CaseComment.contact c = JStr "")
  /\ (forall s, Js.prop a "participantName" = Some (JStr s) -> CaseComment.contact c = JStr s)
  /\ (Js.prop a "content" = None \/ Js.prop a "content" = Some JNull
      \/ Js.prop a "content" = Some (JStr "") ->
      CaseComment.comment c = JStr NO_COMMENT_PLACEHOLDER)
  /\ (forall s, s <> "" -> Js.prop a "content" = Some (JStr s) -> CaseComment.comment c = JStr s).

Definition anonymous_advice : Json :=
  JObj [("id", JNum 7); ("content", JStr ""); ("created", JStr "2024-01-01T00:00:00")].

Definition signed_advice : Json :=
  JObj [("id", JNum 8); ("participantName", JStr "Jon"); ("content", JStr "Gott mal");
        ("created", JStr "2024-02-01T00:00:00")].

(** A network for a case that exists and has two submissions. *)
Definition two_submissions_network : Network :=
  fun history _ =>
    match history with
    | [] => FetchResolves
              (json_response 200
                 (JObj [("data", JObj [("consultationPortalCaseById", JObj [("id", JNum 42)])])]))
    | _ => FetchResolves
             (json_response 200
                (JObj [("data", JObj [("consultationPortalAdviceByCaseId",
                                       JArr [anonymous_advice; signed_advice])])]))
    end.

Definition SEARCH_PARAMS : list (string * ParamValue) :=
  [("pageSize", PStr "1500"); ("orderBy", PStr "LastUpdated")].

Definition null_cases_network : Network :=
  fun _ _ => FetchResolves (json_response 200 (JObj [("cases", JNull); ("total", JNum 0)])).

(** ** More of the case repository and of the transport client *)

(** [fetchCaseById] of [rssService.ts]; [get] is called without parameters. *)
Definition fetchCaseById (net : Network) (id : string) : M Json :=
  if (id =? "")%string then throw (Error "A valid case ID is required.")
  else
    res <- get net apiClient ("/api/cases/" ++ id) [] ;;
    if negb (success res) then throw (Error ("Gat ekki sótt mál með ID: " ++ id ++ "."))
    else if negb (Js.truthy (Some (data res))) then
      throw (Error ("Ekkert mál fannst með ID: " ++ id ++ "."))
    else ret (data res).

(** The request of [fetchCaseById]. *)
Definition case_request (id : string) : Request :=
  call_request apiClient (CallGet ("/api/cases/" ++ id) []).

(** The request of [searchCases]. *)
Definition search_request : Request :=
  call_request apiClient (CallGet "/api/cases" SEARCH_PARAMS).

(** How often the character [c] occurs in [s]. *)
Fixpoint count_char (c : ascii) (s : string) : nat :=
  match s with
  | EmptyString => 0%nat
  | String d r => ((if Ascii.eqb c d then 1 else 0) + count_char c r)%nat
  end.

(** The characters [URLSearchParams.encode] writes: the ones it keeps, [+],
    [%] and the hexadecimal digits (which it keeps too). *)
Definition encoded_char (c : ascii) : bool :=
  URLSearchParams.unreserved c || (Js.code c =? 43)%N || (Js.code c =? 37)%N.

Fixpoint all_chars (p : ascii -> bool) (s : string) : bool :=
  match s with
  | EmptyString => true
  | String c r => p c && all_chars p r
  end.

(** The pairs [get] appends to the query. *)
Definition query_pairs (params : list (string * ParamValue)) : list (string * string) :=
  map (fun kv => (fst kv, String_of_param (snd kv))) params.

(** A network that answers every request with status 200 and the JSON [j]. *)
Definition constant_network (j : Json) : Network :=
  fun _ _ => FetchResolves (json_response 200 j).

(** A network where the case lookup finds the case and the comments query is
    answered by [second]. *)
Definition found_then (second : FetchOutcome) : Network :=
  fun history _ =>
    match history with
    | [] => FetchResolves
              (json_response 200
                 (JObj [("data", JObj [("consultationPortalCaseById", JObj [("id", JNum 42)])])]))
    | _ => second
    end.

(** Leading white space of one byte. *)
Definition all_space1 (s : string) : bool := all_chars Js.is_space1 s.

(** ** The older client of [apiClient.ts], which throws [HttpError], and the
    repository built on it *)

Module HttpErrorClient.

(** What is thrown: an [HttpError] (an [Error] with [status] and [body]), or
    any other [Error]. *)
Inductive Thrown : Type :=
| HttpError (message : string) (status : Z) (body : string)
| Other (e : JsError).

(** The [Error] view of a thrown value, as the console shows it. *)
Definition as_error (t : Thrown) : JsError :=
  match t with
  | HttpError message _ _ => mkError "HttpError" message
  | Other e => e
  end.

(** [error.status], where [None] is [undefined]. *)
Definition status_of (t : Thrown) : option Z :=
  match t with
  | HttpError _ status _ => Some status
  | Other _ => None
  end.

Inductive Outcome (A : Type) : Type :=
| Ok (a : A)
| Raise (t : Thrown).
Arguments Ok {A} a.
Arguments Raise {A} t.

(** The requests and [console.error] calls, and the [console.warn] calls. *)
Record State : Type := mkState { world : World; warnings : list string }.

Definition state0 : State := mkState world0 [].

Definition L (A : Type) : Type := State -> Outcome A * State.

Definition ret {A} (a : A) : L A := fun s => (Ok a, s).

Definition throw {A} (t : Thrown) : L A := fun s => (Raise t, s).

Definition bind {A B} (m : L A) (k : A -> L B) : L B :=
  fun s => match m s with
           | (Ok a, s') => k a s'
           | (Raise t, s') => (Raise t, s')
           end.

Definition try_catch {A} (m : L A) (handler : Thrown -> L A) : L A :=
  fun s => match m s with
           | (Ok a, s') => (Ok a, s')
           | (Raise t, s') => handler t s'
           end.

Definition lift {A} (r : JsError + A) : L A :=
  match r with
  | inl e => throw (Other e)
  | inr a => ret a
  end.

Definition fetch (net : Network) (req : Request) : L Response :=
  fun s =>
    let s' := mkState (mkWorld (trace (world s) ++ [req]) (console (world s))) (warnings s) in
    match net (trace (world s)) req with
    | FetchRejects e => (Raise (Other e), s')
    | FetchResolves r => (Ok r, s')
    end.

Definition console_error (text : string) (e : option JsError) : L unit :=
  fun s => (Ok tt, mkState (mkWorld (trace (world s)) (console (world s) ++ [mkLog text e]))
                           (warnings s)).

Definition console_warn (text : string) : L unit :=
  fun s => (Ok tt, mkState (world s) (warnings s ++ [text])).

Declare Scope legacy_scope.
Notation "x <- m ;; k" := (bind m (fun x => k))
  (at level 61, m at next level, right associativity) : legacy_scope.
Notation "m ;; k" := (bind m (fun _ => k))
  (at level 61, right associativity) : legacy_scope.
Local Open Scope legacy_scope.

(** [get] of the older client; it returns the parsed body. *)
Definition get (net : Network) (this : ApiClient) (endpoint : string)
    (params : list (string * ParamValue)) : L Json :=
  let finalApiUrl := get_url this endpoint params in
  try_catch
    (response <- fetch net (mkRequest "GET" finalApiUrl GET_HEADERS None) ;;
     if negb (resp_ok response) then
       errorBody <- lift (resp_text response) ;;
       console_error ("HTTP error! status: " ++ Js.String_of_Z (resp_status response)
                      ++ ", endpoint: " ++ endpoint ++ ", body: " ++ errorBody) None ;;
       throw (HttpError (http_message (resp_status response)) (resp_status response) errorBody)
     else
       lift (resp_json response))
    (fun error =>
       console_error ("Network or fetch error for endpoint " ++ endpoint ++ ":")
                     (Some (as_error error)) ;;
       match error with
       | HttpError _ _ _ => throw error
       | Other _ => throw (Other (Error NETWORK_MESSAGE))
       end).

(** What [get] gives, by what [fetch] answered. *)
Definition result_of (o : FetchOutcome) : Outcome Json :=
  match o with
  | FetchRejects _ => Raise (Other (Error NETWORK_MESSAGE))
  | FetchResolves r =>
      if resp_ok r then
        match resp_json r with
        | inr d => Ok d
        | inl _ => Raise (Other (Error NETWORK_MESSAGE))
        end
      else
        match resp_text r with
        | inr s => Raise (HttpError (http_message (resp_status r)) (resp_status r) s)
        | inl _ => Raise (Other (Error NETWORK_MESSAGE))
        end
  end.

(** The request of [get]. *)
Definition get_request (this : ApiClient) (endpoint : string)
    (params : list (string * ParamValue)) : Request :=
  mkRequest "GET" (get_url this endpoint params) GET_HEADERS None.

(** Reading a property of [null]. *)
Definition null_TypeError (property : string) : Thrown :=
  Other (mkError "TypeError" ("Cannot read properties of null (reading '" ++ property ++ "')")).

(** [searchCases] of the repository on this client. *)
Definition searchCases (net : Network) : L Json :=
  try_catch
    (let params := [("pageSize", PStr "1500"); ("orderBy", PStr "LastUpdated")] in
     data <- get net apiClient "/api/cases" params ;;
     match data with
     | JNull => throw (null_TypeError "cases")
     | _ => ret (Js.or_else (Js.prop data "cases") (JArr []))
     end)
    (fun error =>
       console_error "Error in searchCases service:" (Some (as_error error)) ;;
       throw error).

(** [fetchCaseById] of the repository on this client; [console.error(error)]
    gives an entry without text. *)
Definition fetchCaseById (net : Network) (id : string) : L Json :=
  if (id =? "")%string then
    let error := Error "A valid case ID is required." in
    console_error "" (Some error) ;;
    throw (Other error)
  else
    try_catch
      (apiCase <- get net apiClient ("/api/cases/" ++ id) [] ;;
       ret apiCase)
      (fun error =>
         console_error ("Error in fetchCaseById service for ID " ++ id ++ ":")
                       (Some (as_error error)) ;;
         throw error).

(** [fetchCaseComments] of the repository on this client: a 404 is an empty
    list. *)
Definition fetchCaseComments (net : Network) (id : string) : L Json :=
  try_catch
    (comments <- get net apiClient ("/api/cases/" ++ id ++ "/submissions") [] ;;
     ret (Js.or_else (Some comments) (JArr [])))
    (fun error =>
       if match status_of error with Some st => st =? 404 | None => false end then
         console_warn ("Caught a 404 for case " ++ id
                       ++ " submissions, returning empty array. This is expected for cases with no comments.") ;;
         ret (JArr [])
       else
         console_error ("Error in fetchCaseComments service for ID " ++ id ++ ":")
                       (Some (as_error error)) ;;
         throw (Other (Error COMMENTS_MESSAGE))).

(** The request of [fetchCaseComments]. *)
Definition submissions_request (id : string) : Request :=
  mkRequest "GET" (get_url apiClient ("/api/cases/" ++ id ++ "/submissions") []) GET_HEADERS None.

End HttpErrorClient.

(** A network that answers every request with the status [st] and a text body. *)
Definition status_network (st : Z) (text : string) : Network :=
  fun _ _ => FetchResolves (mkResponse st (inr text) (inl (mkError "SyntaxError" "Unexpected token"))).

(** ** The mapping of GraphQL advices with their files
    ([geminiService.ts], [mapGraphQLAdviceToCaseComment]) *)

Definition TypeError (message : string) : JsError := mkError "TypeError" message.

Module AdviceFiles.

Module Attachment.
Record t : Type := mk { id : Js.value; name : string; fileType : string }.
End Attachment.

Module Comment.
Record t : Type := mk {
  id : Js.value;
  caseId : Z;
  contact : Js.value;
  comment : Json;
  created : Js.value;
  attachments : list Attachment.t
}.
End Comment.

(** [s.split(sep)] for a separator of one character. *)
Fixpoint split (sep : ascii) (s : string) : list string :=
  match s with
  | EmptyString => [EmptyString]
  | String c r =>
      if Ascii.eqb c sep then EmptyString :: split sep r
      else match split sep r with
           | seg :: rest => String c seg :: rest
           | [] => [String c EmptyString]
           end
  end.

(** [l.pop()], where [None] is [undefined]. *)
Fixpoint pop (l : list string) : option string :=
  match l with
  | [] => None
  | [x] => Some x
  | _ :: rest => pop rest
  end.

(** [name.split('.').pop() || ''] *)
Definition fileTypeOf (name : string) : string :=
  match pop (split "." name) with
  | Some ext => if (ext =? "")%string then "" else ext
  | None => ""
  end.

(** The callback of [advice.adviceFiles.map]. *)
Definition toAttachment (file : Json) : Result Attachment.t :=
  match file with
  | JNull => Throw (TypeError "Cannot read properties of null (reading 'id')")
  | _ =>
      match Js.prop file "name" with
      | Some (JStr name) => Return (Attachment.mk (Js.prop file "id") name (fileTypeOf name))
      | None | Some JNull => Throw (TypeError "Cannot read properties of undefined (reading 'split')")
      | Some _ => Throw (TypeError "file.name.split is not a function")
      end
  end.

Definition mapGraphQLAdviceToCaseComment (advice : Json) (caseId : Z) : Result Comment.t :=
  match advice with
  | JNull => Throw (TypeError "Cannot read properties of null (reading 'id')")
  | _ =>
      match Js.prop advice "adviceFiles" with
      | Some (JArr files) =>
          match array_map toAttachment files with
          | Return attachments =>
              Return (Comment.mk
                        (Js.prop advice "id")
                        caseId
                        (Js.prop advice "participantName")
                        (Js.or_else (Js.prop advice "content") (JStr NO_COMMENT_PLACEHOLDER))
                        (Js.prop advice "created")
                        attachments)
          | Throw e => Throw e
          end
      | None | Some JNull =>
          Throw (TypeError "Cannot read properties of undefined (reading 'map')")
      | Some _ => Throw (TypeError "advice.adviceFiles.map is not a function")
      end
  end.

(** The file [file] is a record with a text name. *)
Definition named_file (file : Json) : Prop :=
  file <> JNull /\ exists name, Js.prop file "name" = Some (JStr name).

(** The attachment [att] is what the file [file] maps to. *)
Definition attachment_of (file : Json) (att : Attachment.t) : Prop :=
  Js.prop file "name" = Some (JStr (Attachment.name att))
  /\ Attachment.id att = Js.prop file "id"
  /\ Attachment.fileType att = fileTypeOf (Attachment.name att).

End AdviceFiles.

(** ** Pure steps of [geminiService.ts] *)

Module Gemini.

(** [s.indexOf(c)] for a character [c]; [None] is [-1]. *)
Fixpoint indexOf (c : ascii) (s : string) : option nat :=
  match s with
  | EmptyString => None
  | String d r => if Ascii.eqb d c then Some 0%nat else option_map S (indexOf c r)
  end.

(** [s.lastIndexOf(c)] for a character [c]; [None] is [-1]. *)
Fixpoint lastIndexOf (c : ascii) (s : string) : option nat :=
  match s with
  | EmptyString => None
  | String d r =>
      match lastIndexOf c r with
      | Some i => Some (S i)
      | None => if Ascii.eqb d c then Some 0%nat else None
      end
  end.

(** The step of [analyzeAlthingiReviews] that looks for a JSON object in the
    answer: the text it goes on with, and whether it logged that it found
    none. Positions count bytes here and UTF-16 units in the source; the
    braces being ASCII, the text cut out is the same. *)
Definition extractJsonObject (responseText : string) : string * bool :=
  match indexOf "{" responseText, lastIndexOf "}" responseText with
  | Some startIndex, Some endIndex =>
      if (startIndex <? endIndex)%nat then
        (substring startIndex (endIndex + 1 - startIndex) responseText, false)
      else (responseText, true)
  | _, _ => (responseText, true)
  end.

(** A [GroundingSource] with its [web] part. *)
Record GroundingSource : Type := mkSource { uri : Json; title : Json }.

(** The callback of [groundingChunks.flatMap]. *)
Definition sourcesOfChunk (chunk : Json) : Result (list GroundingSource) :=
  match chunk with
  | JNull => Throw (TypeError "Cannot read properties of null (reading 'web')")
  | _ =>
      let web := Js.prop chunk "web" in
      match Js.opt_chain web "uri" with
      | Some u =>
          if Js.truthy (Some u) then
            Return [mkSource u (Js.or_else (Js.opt_chain web "title") u)]
          else Return []
      | None => Return []
      end
  end.

(** [groundingChunks.flatMap(...)] *)
Definition toSources (groundingChunks : list Json) : Result (list GroundingSource) :=
  match array_map sourcesOfChunk groundingChunks with
  | Return parts => Return (List.concat parts)
  | Throw e => Throw e
  end.

End Gemini.

(** ** The ordering of the case list ([CaseLookup.tsx]) *)

Module CaseLookup.


End CaseLookup.

(** [chunk.web?.uri] is truthy. *)
Definition chunk_has_uri (chunk : Json) : bool :=
  Js.truthy (Js.opt_chain (Js.prop chunk "web") "uri").

(** The source [s] is the one the chunk [chunk] gives: its [uri] is the
    chunk's, and its [title] is the chunk's when that is truthy and the [uri]
    otherwise. *)
Definition source_of_chunk (chunk : Json) (s : Gemini.GroundingSource) : Prop :=
  Js.opt_chain (Js.prop chunk "web") "uri" = Some (Gemini.uri s)
  /\ (Js.truthy (Js.opt_chain (Js.prop chunk "web") "title") = true ->
      Js.opt_chain (Js.prop chunk "web") "title" = Some (Gemini.title s))
  /\ (Js.truthy (Js.opt_chain (Js.prop chunk "web") "title") = false ->
      Gemini.title s = Gemini.uri s).

(** ** The embedding on concrete inputs *)

Example parseInt_samples :
  Js.parseInt "42" = Some 42 /\ Js.parseInt "  -7x" = Some (-7) /\ Js.parseInt "+15" = Some 15
  /\ Js.parseInt "abc" = None /\ Js.parseInt "" = None /\ Js.parseInt "-" = None
  /\ Js.parseInt "0x10" = Some 0 /\ Js.parseInt "4 2" = Some 4.
Proof. repeat split. Qed.

Example searchCases_url :
  get_url apiClient "/api/cases" SEARCH_PARAMS
  = "https://corsproxy.io/?https://samradapi.island.is/api/cases?pageSize=1500&orderBy=LastUpdated".
Proof. reflexivity. Qed.

Example encode_sample :
  URLSearchParams.toString [("q", "a b&c"); ("n", String_of_param (PNum (-12)))]
  = "q=a+b%26c&n=-12".
Proof. reflexivity. Qed.

Example stringify_samples :
  JSON.stringify (JArr [JNull; JBool true; JNum (-3); JArr []; JObj []]) = "[null,true,-3,[],{}]"
  /\ String.length (JSON.stringify (case_input 42)) = 23%nat
  /\ JSON.escape_all "a\b" = "a\\b".
Proof. repeat split. Qed.

Example unreachable_run :
  get unreachable_network apiClient "/api/cases" [] world0
  = (Return (mkApiResponse false JNull 0
               (Some (mkApiError NETWORK_MESSAGE "Failed to fetch"))),
     mkWorld [mkRequest "GET" "https://corsproxy.io/?https://samradapi.island.is/api/cases"
                GET_HEADERS None]
             [mkLog "Network or fetch error for endpoint /api/cases:"
                (Some (mkError "TypeError" "Failed to fetch"))]).
Proof. reflexivity. Qed.

(** ** Properties of the transport client *)

Ltac run_async :=
  unfold call, get, post, try_catch, bind, fetch, lift, console_error, ret, throw; cbn.

Lemma call_run (net : Network) (this : ApiClient) (c : Call) (w : World) :
  call net this c w =
    (Return (outcome_of (net (trace w) (call_request this c))),
     mkWorld (trace w ++ [call_request this c])
             (console w ++ call_logs c (net (trace w) (call_request this c)))).
Proof.
  destruct c as [endpoint params | url body]; run_async.
  - destruct (net (trace w) _) as [e | r]; cbn; [reflexivity|].
    destruct (resp_ok r); cbn.
    + destruct (resp_json r); cbn; [reflexivity|]. now rewrite app_nil_r.
    + destruct (resp_text r); reflexivity.
  - destruct (net (trace w) _) as [e | r]; cbn; [reflexivity|].
    destruct (resp_ok r); cbn.
    + destruct (resp_json r); cbn; [reflexivity|]. now rewrite app_nil_r.
    + destruct (resp_text r); reflexivity.
Qed.

Lemma get_run (net : Network) (this : ApiClient) endpoint params (w : World) :
  let o := net (trace w) (call_request this (CallGet endpoint params)) in
  get net this endpoint params w =
    (Return (outcome_of o),
     mkWorld (trace w ++ [call_request this (CallGet endpoint params)])
             (console w ++ call_logs (CallGet endpoint params) o)).
Proof. exact (call_run net this (CallGet endpoint params) w). Qed.

Lemma post_run (net : Network) (this : ApiClient) url body (w : World) :
  let o := net (trace w) (call_request this (CallPost url body)) in
  post net this url body w =
    (Return (outcome_of o),
     mkWorld (trace w ++ [call_request this (CallPost url body)])
             (console w ++ call_logs (CallPost url body) o)).
Proof. exact (call_run net this (CallPost url body) w). Qed.

Lemma resp_ok_true (r : Response) :
  resp_ok r = true <-> 200 <= resp_status r <= 299.
Proof. unfold resp_ok. rewrite andb_true_iff, !Z.leb_le. tauto. Qed.

Lemma resp_ok_false (r : Response) :
  resp_ok r = false <-> resp_status r < 200 \/ 299 < resp_status r.
Proof. unfold resp_ok. rewrite andb_false_iff, !Z.leb_gt. tauto. Qed.

(** C2. Whatever the endpoint, the parameter map, the URL, the body and the
    answer of [fetch] (a 2xx response, another response, a rejection, a body
    that cannot be read or parsed), [get] and [post] return an [ApiResponse]
    and raise nothing. *)
Theorem C2_transport_never_raises :
  forall (net : Network) (this : ApiClient) (endpoint : string)
         (params : list (string * ParamValue)) (url : string) (body : Json) (w : World),
    (exists r w', get net this endpoint params w = (Return r, w'))
    /\ (exists r w', post net this url body w = (Return r, w')).
Proof.
  intros. split.
  - rewrite get_run. eauto.
  - rewrite post_run. eauto.
Qed.

(** C3, as stated, fails: for a 200 response whose body is the JSON literal
    [null], [get] returns a success outcome whose payload is [null] and which
    has no failure record, so neither of the two is populated. *)
Lemma C3_counterexample_null_body :
  exists r w',
    get null_body_network apiClient "/api/cases" [] world0 = (Return r, w')
    /\ success r = true /\ data r = JNull /\ error r = None
    /\ ~ exactly_one_populated r.
Proof.
  eexists. eexists. split; [reflexivity|]. cbn.
  repeat split; try reflexivity.
  intros [(_ & Hd & _) | (Hs & _)]; [now apply Hd | discriminate Hs].
Qed.

(** C3, amended. Every outcome of [get] and of [post] is of one of two
    shapes: a failure outcome has a [null] payload and a failure record
    (message and diagnostic body); a success outcome has no failure record,
    carries the status of a 2xx response and has the parsed body as payload.
    Exactly one of payload and failure is populated except for the success
    outcomes of a body that parses to [null]. *)
Theorem C3_outcome_shape :
  forall (net : Network) (this : ApiClient) (c : Call) (w w' : World) (r : ApiResponse),
    call net this c w = (Return r, w') ->
    (success r = false ->
       data r = JNull /\ exists m b, error r = Some (mkApiError m b))
    /\ (success r = true ->
          error r = None
          /\ exists resp, net (trace w) (call_request this c) = FetchResolves resp
                          /\ 200 <= resp_status resp <= 299
                          /\ status r = resp_status resp
                          /\ resp_json resp = inr (data r))
    /\ (exactly_one_populated r <-> ~ (success r = true /\ data r = JNull)).
Proof.
  intros net this c w w' r H. rewrite call_run in H.
  injection H as Hr _.
  assert (Hfail : success r = false ->
                  data r = JNull /\ exists m b, error r = Some (mkApiError m b)).
  { subst r. destruct (net (trace w) (call_request this c)) as [e | resp]; cbn.
    - eauto.
    - destruct (resp_ok resp); [destruct (resp_json resp) | destruct (resp_text resp)];
        cbn; eauto; discriminate. }
  assert (Hsucc : success r = true ->
                  error r = None
                  /\ exists resp, net (trace w) (call_request this c) = FetchResolves resp
                                  /\ 200 <= resp_status resp <= 299
                                  /\ status r = resp_status resp
                                  /\ resp_json resp = inr (data r)).
  { subst r. destruct (net (trace w) (call_request this c)) as [e | resp]; cbn.
    - discriminate.
    - destruct (resp_ok resp) eqn:Hok;
        [destruct (resp_json resp) eqn:Hj | destruct (resp_text resp)];
        cbn; try discriminate.
      intros _. split; [reflexivity|]. exists resp.
      apply resp_ok_true in Hok. auto. }
  split; [exact Hfail|]. split; [exact Hsucc|].
  unfold exactly_one_populated. split.
  - intros [(_ & Hd & _) | (Hs & _)] [Ht Hn]; congruence.
  - intros Hn. destruct (success r) eqn:Hs.
    + left. destruct (Hsucc eq_refl) as [He _]. repeat split; auto.
    + right. destruct (Hfail eq_refl) as (Hd & m & b & He).
      repeat split; auto. rewrite He. discriminate.
Qed.

Lemma C3_outcome_shape_witness :
  exists r w',
    call not_found_network apiClient (CallGet "/api/cases" []) world0 = (Return r, w')
    /\ (success r = false -> data r = JNull /\ exists m b, error r = Some (mkApiError m b))
    /\ (exactly_one_populated r <-> ~ (success r = true /\ data r = JNull)).
Proof.
  eexists. eexists. split; [reflexivity|].
  pose proof (C3_outcome_shape not_found_network apiClient (CallGet "/api/cases" [])
                world0 _ _ eq_refl) as (Hf & _ & Hx).
  split; [exact Hf | exact Hx].
Defined.

(** C4. A 2xx response whose body does not parse as JSON gives, from [get]
    and from [post] alike, the failure outcome of a connection failure:
    status 0, a [null] payload and the network-failure message. It differs
    from the outcome of a rejected [fetch] in nothing but the diagnostic body,
    which is the text of the error that was thrown. *)
Theorem C4_parse_failure_reported_as_network_failure :
  forall (net net' : Network) (this : ApiClient) (c : Call) (w : World)
         (resp : Response) (e e' : JsError),
    net (trace w) (call_request this c) = FetchResolves resp ->
    200 <= resp_status resp <= 299 ->
    resp_json resp = inl e ->
    net' (trace w) (call_request this c) = FetchRejects e' ->
    exists r r',
      fst (call net this c w) = Return r
      /\ fst (call net' this c w) = Return r'
      /\ r = mkApiResponse false JNull 0 (Some (mkApiError NETWORK_MESSAGE (err_message e)))
      /\ r' = mkApiResponse false JNull 0 (Some (mkApiError NETWORK_MESSAGE (err_message e')))
      /\ (err_message e = err_message e' -> r = r').
Proof.
  intros net net' this c w resp e e' Hnet Hst Hj Hnet'.
  rewrite !call_run, Hnet, Hnet'. cbn.
  apply resp_ok_true in Hst. rewrite Hst, Hj.
  eexists. eexists. repeat split.
  intros H. unfold network_failure. now rewrite H.
Qed.

Lemma C4_parse_failure_witness :
  exists r r',
    fst (call unparseable_network apiClient (CallPost GRAPHQL_ENDPOINT JNull) world0) = Return r
    /\ fst (call unreachable_network apiClient (CallPost GRAPHQL_ENDPOINT JNull) world0) = Return r'
    /\ r = mkApiResponse false JNull 0
             (Some (mkApiError NETWORK_MESSAGE "Unexpected token <"))
    /\ r' = mkApiResponse false JNull 0
              (Some (mkApiError NETWORK_MESSAGE "Failed to fetch"))
    /\ ("Unexpected token <" = "Failed to fetch" -> r = r').
Proof.
  apply (C4_parse_failure_reported_as_network_failure
           unparseable_network unreachable_network apiClient
           (CallPost GRAPHQL_ENDPOINT JNull) world0
           (mkResponse 200 (inr "<html>") (inl (mkError "SyntaxError" "Unexpected token <")))
           (mkError "SyntaxError" "Unexpected token <")
           (mkError "TypeError" "Failed to fetch")).
  - reflexivity.
  - cbn. lia.
  - reflexivity.
  - reflexivity.
Defined.

(** C5. For a response whose status lies outside [200,299], [get] and [post]
    return the failure outcome that carries this status, the body text as it
    was received and a [null] payload; what parsing the body as JSON would
    give plays no part in the result. *)
Theorem C5_http_failure_keeps_status_and_body :
  forall (net : Network) (this : ApiClient) (c : Call) (w : World)
         (resp : Response) (s : string),
    net (trace w) (call_request this c) = FetchResolves resp ->
    resp_status resp < 200 \/ 299 < resp_status resp ->
    resp_text resp = inr s ->
    fst (call net this c w)
      = Return (mkApiResponse false JNull (resp_status resp)
                  (Some (mkApiError (http_message (resp_status resp)) s)))
    /\ (forall (net' : Network) (parsed : JsError + Json),
          net' (trace w) (call_request this c)
            = FetchResolves (mkResponse (resp_status resp) (resp_text resp) parsed) ->
          call net' this c w = call net this c w).
Proof.
  intros net this c w resp s Hnet Hst Ht.
  apply resp_ok_false in Hst.
  split.
  - rewrite call_run, Hnet. cbn. now rewrite Hst, Ht.
  - intros net' parsed Hnet'. rewrite !call_run, Hnet, Hnet'.
    unfold outcome_of, call_logs, resp_ok in *. cbn. rewrite Hst, Ht.
    destruct c; reflexivity.
Qed.

Lemma C5_http_failure_witness :
  fst (call not_found_network apiClient (CallGet "/api/cases" []) world0)
    = Return (mkApiResponse false JNull 404
                (Some (mkApiError (http_message 404) "Not Found")))
  /\ (forall (net' : Network) (parsed : JsError + Json),
        net' (trace world0) (call_request apiClient (CallGet "/api/cases" []))
          = FetchResolves (mkResponse 404 (inr "Not Found") parsed) ->
        call net' apiClient (CallGet "/api/cases" []) world0
          = call not_found_network apiClient (CallGet "/api/cases" []) world0).
Proof.
  apply (C5_http_failure_keeps_status_and_body not_found_network apiClient
           (CallGet "/api/cases" []) world0
           (mkResponse 404 (inr "Not Found") (inl (mkError "SyntaxError" "Unexpected token N")))
           "Not Found").
  - reflexivity.
  - cbn. lia.
  - reflexivity.
Defined.

(** ** Properties of the case repository *)




Lemma postGraphQL_run (net : Network) query variables operationName (w : World) :
  let c := CallPost GRAPHQL_ENDPOINT (graphql_body query variables operationName) in
  let o := net (trace w) (call_request apiClient c) in
  postGraphQL net query variables operationName w =
    (Return (outcome_of o),
     mkWorld (trace w ++ [call_request apiClient c]) (console w ++ call_logs c o)).
Proof. unfold postGraphQL. apply post_run. Qed.

Lemma array_map_throws_TypeError (caseId : Z) (items : list Json) (e : JsError) :
  array_map (toCaseComment caseId) items = Throw e -> err_name e = "TypeError".
Proof.
  induction items as [|a rest IH]; cbn; [discriminate|].
  destruct a; cbn;
    try (destruct (array_map (toCaseComment caseId) rest); [discriminate | intros H; apply IH; exact H]).
  intros H. injection H as <-. reflexivity.
Qed.


(** C7. When the input does not parse as a number ([Number.parseInt] gives
    [NaN]), as for ["abc"], [fetchCaseComments] raises the invalid-id error
    at once: no request was issued and nothing was logged. *)
Theorem C7_invalid_id_raises_before_any_request :
  forall (net : Network) (id : string) (w : World),
    Js.parseInt id = None ->
    fetchCaseComments net id w = (Throw (Error INVALID_ID_MESSAGE), w).
Proof.
  intros net id w H. unfold fetchCaseComments. now rewrite H.
Qed.

Lemma C7_invalid_id_witness :
  Js.parseInt "abc" = None
  /\ fetchCaseComments unreachable_network "abc" world0
       = (Throw (Error INVALID_ID_MESSAGE), world0)
  /\ trace world0 = [].
Proof.
  split; [reflexivity|]. split; [|reflexivity].
  apply (C7_invalid_id_raises_before_any_request unreachable_network "abc" world0).
  reflexivity.
Defined.






Example numeric_prefix_run :
  fetchCaseComments two_submissions_network "42abc" world0
  = (Return [CaseComment.mk (Some (JNum 7)) 42 (JStr "") (JStr NO_COMMENT_PLACEHOLDER)
               (Some (JStr "2024-01-01T00:00:00")) [];
             CaseComment.mk (Some (JNum 8)) 42 (JStr "Jon") (JStr "Gott mal")
               (Some (JStr "2024-02-01T00:00:00")) []],
     mkWorld [meta_request 42; advices_request 42] []).
Proof. reflexivity. Qed.

Lemma graphql_ok_outcome net history req envelope :
  graphql_ok net history req envelope ->
  exists st, outcome_of (net history req) = mkApiResponse true envelope st None
             /\ forall c, call_logs c (net history req) = [].
Proof.
  intros (resp & Hnet & Hst & Hj). apply resp_ok_true in Hst.
  exists (resp_status resp). rewrite Hnet. cbn. rewrite Hst, Hj. auto.
Qed.

(** The existence check answered, the case is not taken as present: the empty
    sequence, after one request. *)
Lemma fetchCaseComments_not_found net id caseId w envelope :
  Js.parseInt id = Some caseId ->
  graphql_ok net (trace w) (meta_request caseId) envelope ->
  Js.truthy (Js.opt_chain (reported_case envelope) "id") = false ->
  fetchCaseComments net id w
    = (Return [], mkWorld (trace w ++ [meta_request caseId]) (console w)).
Proof.
  intros Hid Hok Hfound. unfold fetchCaseComments. rewrite Hid. unfold bind.
  rewrite postGraphQL_run. cbv zeta.
  destruct (graphql_ok_outcome _ _ _ _ Hok) as (st & Ho & Hl).
  unfold meta_request, meta_call in Ho, Hl. rewrite Ho, Hl.
  cbn [success negb]. unfold case_found. cbn [data].
  unfold reported_case in Hfound. rewrite Hfound. cbn [negb].
  unfold ret. now rewrite app_nil_r.
Qed.

(** Both queries answered, the case taken as present: the mapped items,
    after two requests. *)
Lemma fetchCaseComments_found net id caseId w env1 env2 :
  Js.parseInt id = Some caseId ->
  graphql_ok net (trace w) (meta_request caseId) env1 ->
  case_present env1 ->
  graphql_ok net (trace w ++ [meta_request caseId]) (advices_request caseId) env2 ->
  fetchCaseComments net id w
    = (match Js.nullish (reported_advices env2) (JArr []) with
       | JArr (a :: rest) => array_map (toCaseComment caseId) (a :: rest)
       | _ => Return []
       end,
       mkWorld (trace w ++ [meta_request caseId; advices_request caseId]) (console w)).
Proof.
  intros Hid Hok1 Hfound Hok2. unfold fetchCaseComments. rewrite Hid. unfold bind.
  rewrite postGraphQL_run. cbv zeta.
  destruct (graphql_ok_outcome _ _ _ _ Hok1) as (st1 & Ho1 & Hl1).
  unfold meta_request, meta_call in Ho1, Hl1. rewrite Ho1, Hl1.
  cbn [success negb]. unfold case_found. cbn [data].
  unfold case_present, reported_case in Hfound. rewrite Hfound. cbn [negb].
  rewrite postGraphQL_run. cbv zeta. cbn [trace console].
  destruct (graphql_ok_outcome _ _ _ _ Hok2) as (st2 & Ho2 & Hl2).
  unfold advices_request, advices_call, meta_request, meta_call in Ho2, Hl2.
  rewrite Ho2, Hl2. cbn [success negb]. unfold advice_items. cbn [data].
  rewrite !app_nil_r, <- app_assoc. cbn [app].
  unfold reported_advices, meta_request, advices_request, meta_call, advices_call.
  destruct (Js.nullish _ _) as [| | | |[|a rest]|]; reflexivity.
Qed.

Lemma case_absent_not_found (envelope : Json) :
  case_absent envelope -> Js.truthy (Js.opt_chain (reported_case envelope) "id") = false.
Proof. intros [H | [H | H]]; now rewrite H. Qed.

Lemma errors_without_data_not_found (envelope : Json) :
  errors_without_data envelope -> case_absent envelope /\ reported_advices envelope = None.
Proof.
  intros [(e & es & He) Hd]. unfold case_absent, reported_case, reported_advices.
  destruct envelope; try discriminate He.
  cbn in *. destruct Hd as [-> | ->]; cbn; auto.
Qed.

Example null_record_raises :
  exists e, array_map (toCaseComment 42) [anonymous_advice; JNull] = Throw e
            /\ err_name e = "TypeError".
Proof. eexists. split; reflexivity. Qed.

(** The comments query answered with no items, [null] or nothing: the empty
    sequence. *)
Lemma fetchCaseComments_no_submissions net id caseId w env1 env2 :
  Js.parseInt id = Some caseId ->
  graphql_ok net (trace w) (meta_request caseId) env1 ->
  case_present env1 ->
  graphql_ok net (trace w ++ [meta_request caseId]) (advices_request caseId) env2 ->
  reported_advices env2 = None \/ reported_advices env2 = Some JNull
  \/ reported_advices env2 = Some (JArr []) ->
  fetchCaseComments net id w
    = (Return [], mkWorld (trace w ++ [meta_request caseId; advices_request caseId]) (console w)).
Proof.
  intros Hid Hok1 Hfound Hok2 Hzero.
  rewrite (fetchCaseComments_found net id caseId w env1 env2) by assumption.
  destruct Hzero as [-> | [-> | ->]]; reflexivity.
Qed.

(** C6. When the existence check succeeds at the transport level and reports
    the case absent ([consultationPortalCaseById] is [null] or has no [id]),
    [fetchCaseComments] returns the empty sequence after that single request:
    the comments query is not issued. A case with zero submissions gives the
    same value. *)
Theorem C6_absent_case_yields_empty_without_comments_query :
  forall (net : Network) (id : string) (caseId : Z) (w : World) (envelope : Json),
    Js.parseInt id = Some caseId ->
    graphql_ok net (trace w) (meta_request caseId) envelope ->
    case_absent envelope ->
    fetchCaseComments net id w
      = (Return [], mkWorld (trace w ++ [meta_request caseId]) (console w))
    /\ (forall (net0 : Network) (env1 env2 : Json),
          graphql_ok net0 (trace w) (meta_request caseId) env1 ->
          case_present env1 ->
          graphql_ok net0 (trace w ++ [meta_request caseId]) (advices_request caseId) env2 ->
          reported_advices env2 = Some (JArr []) ->
          fst (fetchCaseComments net0 id w) = fst (fetchCaseComments net id w)).
Proof.
  intros net id caseId w envelope Hid Hok Habsent.
  assert (Hrun : fetchCaseComments net id w
                 = (Return [], mkWorld (trace w ++ [meta_request caseId]) (console w))).
  { apply (fetchCaseComments_not_found net id caseId w envelope); auto.
    now apply case_absent_not_found. }
  split; [exact Hrun|].
  intros net0 env1 env2 Hok1 Hpresent Hok2 Hzero.
  rewrite Hrun.
  rewrite (fetchCaseComments_no_submissions net0 id caseId w env1 env2); auto.
Qed.

Lemma C6_absent_case_witness :
  fetchCaseComments absent_case_network "42" world0
    = (Return [], mkWorld [meta_request 42] [])
  /\ fst (fetchCaseComments zero_submissions_network "42" world0)
     = fst (fetchCaseComments absent_case_network "42" world0).
Proof.
  destruct (C6_absent_case_yields_empty_without_comments_query
              absent_case_network "42" 42 world0
              (JObj [("data", JObj [("consultationPortalCaseById", JNull)])]))
    as [Hrun Hsame].
  - reflexivity.
  - eexists. split; [reflexivity|]. split; [cbn; lia | reflexivity].
  - left. reflexivity.
  - split; [exact Hrun|].
    apply (Hsame zero_submissions_network
             (JObj [("data", JObj [("consultationPortalCaseById", JObj [("id", JNum 42)])])])
             (JObj [("data", JObj [("consultationPortalAdviceByCaseId", JArr [])])])).
    + eexists. split; [reflexivity|]. split; [cbn; lia | reflexivity].
    + reflexivity.
    + eexists. split; [reflexivity|]. split; [cbn; lia | reflexivity].
    + reflexivity.
Defined.

(** C1, as stated, fails: a 200 response whose envelope carries a populated
    [errors] array and no [data], given to the existence check, makes
    [fetchCaseComments] return the empty sequence; nothing is raised. *)
Lemma C1_counterexample_errors_envelope :
  errors_without_data rejected_envelope
  /\ graphql_ok graphql_errors_network [] (meta_request 42) rejected_envelope
  /\ fetchCaseComments graphql_errors_network "42" world0
       = (Return [], mkWorld [meta_request 42] [])
  /\ (forall e, fst (fetchCaseComments graphql_errors_network "42" world0) <> Throw e).
Proof.
  assert (Hrun : fetchCaseComments graphql_errors_network "42" world0
                 = (Return [], mkWorld [meta_request 42] [])) by reflexivity.
  split; [|split; [|split]].
  - split; [eexists; eexists; reflexivity | left; reflexivity].
  - eexists. split; [reflexivity|]. split; [cbn; lia | reflexivity].
  - exact Hrun.
  - intros e. rewrite Hrun. discriminate.
Qed.

(** C1, amended. A 2xx response whose envelope carries a populated [errors]
    array and no [data] is not treated as a failure. Given to the existence
    check, it makes [fetchCaseComments] return the empty sequence without
    issuing the comments query; given to the comments query of a case found
    present, it makes it return the empty sequence as well. *)
Theorem C1_errors_envelope_yields_empty :
  forall (net : Network) (id : string) (caseId : Z) (w : World) (envelope : Json),
    Js.parseInt id = Some caseId ->
    errors_without_data envelope ->
    (graphql_ok net (trace w) (meta_request caseId) envelope ->
     fetchCaseComments net id w
       = (Return [], mkWorld (trace w ++ [meta_request caseId]) (console w)))
    /\ (forall env1 : Json,
          graphql_ok net (trace w) (meta_request caseId) env1 ->
          case_present env1 ->
          graphql_ok net (trace w ++ [meta_request caseId]) (advices_request caseId) envelope ->
          fetchCaseComments net id w
            = (Return [],
               mkWorld (trace w ++ [meta_request caseId; advices_request caseId]) (console w))).
Proof.
  intros net id caseId w envelope Hid Herr.
  destruct (errors_without_data_not_found envelope Herr) as [Habsent Hadv].
  split.
  - intros Hok. apply (fetchCaseComments_not_found net id caseId w envelope); auto.
    now apply case_absent_not_found.
  - intros env1 Hok1 Hpresent Hok2.
    apply (fetchCaseComments_no_submissions net id caseId w env1 envelope); auto.
Qed.

Lemma C1_errors_envelope_witness :
  fetchCaseComments graphql_errors_network "42" world0
    = (Return [], mkWorld (trace world0 ++ [meta_request 42]) (console world0)).
Proof.
  destruct (C1_errors_envelope_yields_empty graphql_errors_network "42" 42 world0
              rejected_envelope) as [Hmeta _].
  - reflexivity.
  - split; [eexists; eexists; reflexivity | left; reflexivity].
  - apply Hmeta. eexists. split; [reflexivity|]. split; [cbn; lia | reflexivity].
Defined.

Lemma toCaseComment_mapped (caseId : Z) (a : Json) :
  a <> JNull ->
  exists c, toCaseComment caseId a = Return c /\ mapped_from caseId a c.
Proof.
  intros Ha.
  assert (Hc : toCaseComment caseId a
               = Return (CaseComment.mk (Js.prop a "id") caseId
                           (Js.nullish (Js.prop a "participantName") (JStr ""))
                           (Js.or_else (Js.prop a "content") (JStr NO_COMMENT_PLACEHOLDER))
                           (Js.prop a "created") [])).
  { destruct a; try reflexivity. now contradiction Ha. }
  eexists. split; [exact Hc|].
  unfold mapped_from. cbn [CaseComment.caseId CaseComment.attachments CaseComment.id
                           CaseComment.created CaseComment.contact CaseComment.comment].
  repeat split.
  - intros [-> | ->]; reflexivity.
  - intros s ->. reflexivity.
  - intros [-> | [-> | ->]]; reflexivity.
  - intros s Hs ->. cbn. destruct s; [congruence | reflexivity].
Qed.

Lemma array_map_mapped (caseId : Z) (items : list Json) :
  Forall (fun a => a <> JNull) items ->
  exists comments,
    array_map (toCaseComment caseId) items = Return comments
    /\ Forall2 (mapped_from caseId) items comments.
Proof.
  induction 1 as [|a rest Ha _ IH].
  - exists []. split; [reflexivity | constructor].
  - destruct (toCaseComment_mapped caseId a Ha) as (c & Hc & Hm).
    destruct IH as (cs & Hcs & Hms).
    exists (c :: cs). cbn [array_map]. rewrite Hc, Hcs. split; [reflexivity|].
    now constructor.
Qed.

(** C8. When both queries succeed and the comments query returns the records
    [items], none of them [null], [fetchCaseComments] returns one comment per
    record, in order, where: the case id is the number parsed from the input;
    the attachments are empty; a missing submitter name gives the empty
    string; a missing or empty body gives the placeholder; a name or a
    non-empty body that is given is kept, as are [id] and [created]. *)
Theorem C8_comments_are_mapped :
  forall (net : Network) (id : string) (caseId : Z) (w : World)
         (env1 env2 : Json) (items : list Json),
    Js.parseInt id = Some caseId ->
    graphql_ok net (trace w) (meta_request caseId) env1 ->
    case_present env1 ->
    graphql_ok net (trace w ++ [meta_request caseId]) (advices_request caseId) env2 ->
    reported_advices env2 = Some (JArr items) ->
    Forall (fun a => a <> JNull) items ->
    exists comments,
      fst (fetchCaseComments net id w) = Return comments
      /\ Forall2 (mapped_from caseId) items comments.
Proof.
  intros net id caseId w env1 env2 items Hid Hok1 Hpresent Hok2 Hitems Hrecords.
  rewrite (fetchCaseComments_found net id caseId w env1 env2) by assumption.
  rewrite Hitems. cbn [Js.nullish fst].
  destruct items as [|a rest].
  - exists []. split; [reflexivity | constructor].
  - now apply array_map_mapped.
Qed.

Lemma C8_comments_witness :
  exists comments,
    fst (fetchCaseComments two_submissions_network "42" world0) = Return comments
    /\ Forall2 (mapped_from 42) [anonymous_advice; signed_advice] comments.
Proof.
  apply (C8_comments_are_mapped two_submissions_network "42" 42 world0
           (JObj [("data", JObj [("consultationPortalCaseById", JObj [("id", JNum 42)])])])
           (JObj [("data", JObj [("consultationPortalAdviceByCaseId",
                                  JArr [anonymous_advice; signed_advice])])])).
  - reflexivity.
  - eexists. split; [reflexivity|]. split; [cbn; lia | reflexivity].
  - reflexivity.
  - eexists. split; [reflexivity|]. split; [cbn; lia | reflexivity].
  - reflexivity.
  - repeat constructor; discriminate.
Defined.

Example two_submissions_run :
  fst (fetchCaseComments two_submissions_network "42" world0)
  = Return [CaseComment.mk (Some (JNum 7)) 42 (JStr "") (JStr NO_COMMENT_PLACEHOLDER)
              (Some (JStr "2024-01-01T00:00:00")) [];
            CaseComment.mk (Some (JNum 8)) 42 (JStr "Jon") (JStr "Gott mal")
              (Some (JStr "2024-02-01T00:00:00")) []].
Proof. reflexivity. Qed.

(** C9. After a successful transport outcome whose payload has no [cases]
    or has [cases: null], as in [{ cases: null, total: 0 }], [searchCases]
    returns the empty sequence; after a failure outcome it raises the
    "could not fetch the case list" error. *)
Theorem C9_searchCases_empty_or_raises :
  forall (net : Network) (w w' : World) (res : ApiResponse),
    get net apiClient "/api/cases" SEARCH_PARAMS w = (Return res, w') ->
    (success res = true ->
     Js.opt_chain (Some (data res)) "cases" = None
     \/ Js.opt_chain (Some (data res)) "cases" = Some JNull ->
     searchCases net w = (Return (JArr []), w'))
    /\ (success res = false ->
        searchCases net w = (Throw (Error CASE_LIST_MESSAGE), w')).
Proof.
  intros net w w' res Hget. unfold searchCases, bind.
  change [("pageSize", PStr "1500"); ("orderBy", PStr "LastUpdated")] with SEARCH_PARAMS.
  rewrite Hget. split.
  - intros -> [-> | ->]; reflexivity.
  - intros ->. reflexivity.
Qed.

Lemma C9_searchCases_witness :
  (exists w', searchCases null_cases_network world0 = (Return (JArr []), w'))
  /\ (exists w', searchCases not_found_network world0 = (Throw (Error CASE_LIST_MESSAGE), w')).
Proof.
  split.
  - eexists.
    refine (proj1 (C9_searchCases_empty_or_raises null_cases_network world0 _ _ eq_refl)
              eq_refl _).
    right. reflexivity.
  - eexists.
    exact (proj2 (C9_searchCases_empty_or_raises not_found_network world0 _ _ eq_refl)
             eq_refl).
Defined.

(** ** Further properties of the transport client *)

(** X1. A 2xx response whose body parses as JSON gives, from [get] and from
    [post], the success outcome with that status and that payload; one
    request is issued and nothing is logged. *)
Theorem transport_success_keeps_status_and_payload :
  forall (net : Network) (this : ApiClient) (c : Call) (w : World)
         (resp : Response) (d : Json),
    net (trace w) (call_request this c) = FetchResolves resp ->
    200 <= resp_status resp <= 299 ->
    resp_json resp = inr d ->
    call net this c w
      = (Return (mkApiResponse true d (resp_status resp) None),
         mkWorld (trace w ++ [call_request this c]) (console w)).
Proof.
  intros net this c w resp d Hnet Hst Hj.
  rewrite call_run, Hnet. cbn. apply resp_ok_true in Hst.
  now rewrite Hst, Hj, app_nil_r.
Qed.

Lemma transport_success_witness :
  call null_cases_network apiClient (CallGet "/api/cases" SEARCH_PARAMS) world0
    = (Return (mkApiResponse true (JObj [("cases", JNull); ("total", JNum 0)]) 200 None),
       mkWorld (trace world0 ++ [call_request apiClient (CallGet "/api/cases" SEARCH_PARAMS)])
               (console world0)).
Proof.
  apply (transport_success_keeps_status_and_payload null_cases_network apiClient
           (CallGet "/api/cases" SEARCH_PARAMS) world0
           (json_response 200 (JObj [("cases", JNull); ("total", JNum 0)]))).
  - reflexivity.
  - cbn. lia.
  - reflexivity.
Defined.

(** X2. Every call of [get] or [post] makes one attempt: it adds exactly one
    request to those issued. It logs exactly one console entry when the
    outcome is a failure and none when it is a success. *)
Theorem transport_single_attempt_and_logging :
  forall (net : Network) (this : ApiClient) (c : Call) (w w' : World) (r : ApiResponse),
    call net this c w = (Return r, w') ->
    trace w' = (trace w ++ [call_request this c])%list
    /\ (success r = true -> console w' = console w)
    /\ (success r = false -> exists entry, console w' = (console w ++ [entry])%list).
Proof.
  intros net this c w w' r H. rewrite call_run in H.
  injection H as Hr Hw. subst r w'. cbn [trace console].
  split; [reflexivity|].
  destruct (net (trace w) (call_request this c)) as [e | resp]; cbn.
  - split; [discriminate | eauto].
  - destruct (resp_ok resp); [destruct (resp_json resp) | destruct (resp_text resp)];
      cbn; (split; [try discriminate | try discriminate; eauto]).
    intros _. apply app_nil_r.
Qed.

Lemma transport_single_attempt_witness :
  exists r w',
    call not_found_network apiClient (CallPost GRAPHQL_ENDPOINT JNull) world0 = (Return r, w')
    /\ trace w' = (trace world0 ++ [call_request apiClient (CallPost GRAPHQL_ENDPOINT JNull)])%list
    /\ (success r = true -> console w' = console world0)
    /\ (success r = false -> exists entry, console w' = (console world0 ++ [entry])%list).
Proof.
  eexists. eexists. split; [reflexivity|].
  apply (transport_single_attempt_and_logging not_found_network apiClient
           (CallPost GRAPHQL_ENDPOINT JNull) world0).
  reflexivity.
Defined.

Lemma http_message_not_network (st : Z) : http_message st <> NETWORK_MESSAGE.
Proof. unfold http_message, NETWORK_MESSAGE. cbn. discriminate. Qed.

(** X3. A failure outcome of [get] or [post] is of one of two kinds, which
    their messages tell apart: either no response could be used (a rejected
    [fetch], an unreadable or unparseable body) and the outcome has status 0
    and the network-failure message, or a response with a status outside
    [200,299] was received and the outcome has that status and the HTTP
    message naming it. *)
Theorem transport_failure_kinds :
  forall (net : Network) (this : ApiClient) (c : Call) (w w' : World) (r : ApiResponse),
    call net this c w = (Return r, w') ->
    success r = false ->
    (status r = 0
     /\ option_map message (error r) = Some NETWORK_MESSAGE
     /\ forall st, option_map message (error r) <> Some (http_message st))
    \/ (exists resp s,
          net (trace w) (call_request this c) = FetchResolves resp
          /\ (resp_status resp < 200 \/ 299 < resp_status resp)
          /\ resp_text resp = inr s
          /\ status r = resp_status resp
          /\ error r = Some (mkApiError (http_message (resp_status resp)) s)
          /\ option_map message (error r) <> Some NETWORK_MESSAGE).
Proof.
  intros net this c w w' r H Hfail. rewrite call_run in H.
  injection H as Hr _. subst r.
  assert (Hnetwork : forall e,
            status (network_failure e) = 0
            /\ option_map message (error (network_failure e)) = Some NETWORK_MESSAGE
            /\ forall st, option_map message (error (network_failure e))
                          <> Some (http_message st)).
  { intros e. unfold network_failure. cbn [status error option_map message].
    repeat split. intros st Heq. apply (http_message_not_network st). congruence. }
  destruct (net (trace w) (call_request this c)) as [e | resp] eqn:Hnet;
    cbn [outcome_of] in *.
  - left. apply Hnetwork.
  - destruct (resp_ok resp) eqn:Hok.
    + destruct (resp_json resp); [left; apply Hnetwork | discriminate Hfail].
    + destruct (resp_text resp) as [e | s] eqn:Ht; [left; apply Hnetwork|].
      right. exists resp, s. apply resp_ok_false in Hok.
      unfold http_failure. cbn [status error option_map message].
      repeat split; auto.
      intros Heq. apply (http_message_not_network (resp_status resp)). congruence.
Qed.

Lemma transport_failure_kinds_witness :
  exists resp s,
    not_found_network (trace world0) (call_request apiClient (CallGet "/api/cases" []))
      = FetchResolves resp
    /\ resp_text resp = inr s
    /\ fst (call not_found_network apiClient (CallGet "/api/cases" []) world0)
       = Return (mkApiResponse false JNull 404 (Some (mkApiError (http_message 404) s))).
Proof.
  destruct (transport_failure_kinds not_found_network apiClient (CallGet "/api/cases" [])
              world0 _ _ eq_refl eq_refl)
    as [(H0 & _) | (resp & s & Hnet & _ & Ht & _ & _ & _)].
  - discriminate H0.
  - exists resp, s. injection Hnet as <-. injection Ht as <-.
    repeat split.
Defined.

Lemma encode_chars (s : string) : all_chars encoded_char (URLSearchParams.encode s) = true.
Proof.
  induction s as [|c s IH]; [reflexivity|].
  cbn [URLSearchParams.encode].
  destruct (URLSearchParams.unreserved c) eqn:Hu.
  - cbn [all_chars]. unfold encoded_char at 1. now rewrite Hu.
  - destruct (Js.code c =? 32)%N.
    + cbn [all_chars]. now rewrite IH.
    + cbn [all_chars]. rewrite IH.
      destruct c as [[] [] [] [] [] [] [] []]; reflexivity.
Qed.

Lemma count_char_absent (p : ascii -> bool) (c : ascii) (s : string) :
  all_chars p s = true -> p c = false -> count_char c s = 0%nat.
Proof.
  intros Hs Hc. induction s as [|d s IH]; [reflexivity|].
  cbn in *. apply andb_true_iff in Hs as [Hd Hs].
  destruct (Ascii.eqb_spec c d) as [-> | _]; [congruence | now apply IH].
Qed.

Lemma count_char_app (c : ascii) (a b : string) :
  count_char c (a ++ b) = (count_char c a + count_char c b)%nat.
Proof. induction a as [|d a IH]; cbn; [reflexivity | rewrite IH; lia]. Qed.

Lemma count_char_encode (c : ascii) (s : string) :
  encoded_char c = false -> count_char c (URLSearchParams.encode s) = 0%nat.
Proof.
  intros Hc. apply (count_char_absent encoded_char); [apply encode_chars | exact Hc].
Qed.

Lemma toString_cons (k v : string) (rest : list (string * string)) :
  URLSearchParams.toString ((k, v) :: rest)
  = URLSearchParams.encode k ++ "=" ++ URLSearchParams.encode v
    ++ match rest with [] => "" | _ => "&" ++ URLSearchParams.toString rest end.
Proof.
  destruct rest as [|p rest]; cbn [URLSearchParams.toString].
  - do 2 f_equal. induction (URLSearchParams.encode v) as [|d e IH]; cbn; congruence.
  - reflexivity.
Qed.

Lemma toString_counts (c : ascii) (pairs : list (string * string)) :
  encoded_char c = false ->
  count_char c (URLSearchParams.toString pairs)
  = ((if Ascii.eqb c "=" then List.length pairs else 0)
     + (if Ascii.eqb c "&" then pred (List.length pairs) else 0))%nat.
Proof.
  intros Hc. induction pairs as [|[k v] rest IH].
  - cbn. now destruct (Ascii.eqb c "="), (Ascii.eqb c "&").
  - rewrite toString_cons, !count_char_app, !count_char_encode by exact Hc.
    destruct rest as [|p rest].
    + cbn. destruct (Ascii.eqb c "="), (Ascii.eqb c "&"); reflexivity.
    + rewrite count_char_app, IH. cbn [count_char List.length pred].
      destruct (Ascii.eqb c "="), (Ascii.eqb c "&"); lia.
Qed.

(** X4. The URL [get] requests is the proxy prefix, the base URL and the
    endpoint, followed, only when there are parameters, by [?] and the query
    string. In the query string each parameter accounts for exactly one [=],
    consecutive parameters are separated by one [&], and no key or value
    contributes a raw [=], [&], [#], [?] or space, whatever it contains. *)
Theorem get_query_string_structure :
  forall (this : ApiClient) (endpoint : string) (params : list (string * ParamValue)),
    let q := URLSearchParams.toString (query_pairs params) in
    get_url this endpoint params
      = proxyUrl this ++ baseUrl this ++ endpoint
        ++ match params with [] => "" | _ => "?" ++ q end
    /\ count_char "=" q = List.length params
    /\ count_char "&" q = pred (List.length params)
    /\ count_char "#" q = 0%nat /\ count_char "?" q = 0%nat /\ count_char " " q = 0%nat.
Proof.
  intros this endpoint params q.
  assert (Hlen : List.length (query_pairs params) = List.length params)
    by (unfold query_pairs; apply length_map).
  assert (Heq : count_char "=" q = List.length params)
    by (unfold q; rewrite toString_counts by reflexivity; cbn; lia).
  split; [|repeat split].
  - unfold get_url. fold (query_pairs params). fold q.
    destruct params as [|p ps]; [reflexivity|].
    destruct q as [|c q']; [discriminate Heq | reflexivity].
  - exact Heq.
  - unfold q. rewrite toString_counts by reflexivity. cbn. lia.
  - unfold q. now rewrite toString_counts.
  - unfold q. now rewrite toString_counts.
  - unfold q. now rewrite toString_counts.
Qed.

Example query_string_sample :
  get_url apiClient "/api/cases" [("q", PStr "a=b&c d#e?"); ("page", PNum 2)]
  = "https://corsproxy.io/?https://samradapi.island.is/api/cases?q=a%3Db%26c+d%23e%3F&page=2".
Proof. reflexivity. Qed.

(** ** Further properties of the case repository *)

Lemma fetchCaseById_run (net : Network) (id : string) (w : World) :
  id <> "" ->
  let o := net (trace w) (case_request id) in
  let w' := mkWorld (trace w ++ [case_request id])
                    (console w ++ call_logs (CallGet ("/api/cases/" ++ id) []) o) in
  fetchCaseById net id w
    = if negb (success (outcome_of o)) then
        (Throw (Error ("Gat ekki sótt mál með ID: " ++ id ++ ".")), w')
      else if negb (Js.truthy (Some (data (outcome_of o)))) then
        (Throw (Error ("Ekkert mál fannst með ID: " ++ id ++ ".")), w')
      else (Return (data (outcome_of o)), w').
Proof.
  intros Hid o w'. unfold fetchCaseById.
  destruct (String.eqb_spec id "") as [-> | _]; [congruence|].
  unfold bind. rewrite get_run. fold (case_request id). fold o. fold w'.
  destruct (success (outcome_of o)); cbn [negb]; [|reflexivity].
  destruct (Js.truthy (Some (data (outcome_of o)))); reflexivity.
Qed.

(** X5. [fetchCaseById] never hands back an absent case: when it returns,
    the id was not empty, exactly one request was issued, a 2xx response was
    received, and the value returned is its parsed body, which is neither
    [null] nor any other falsy value. *)
Theorem fetchCaseById_returns_only_a_present_case :
  forall (net : Network) (id : string) (w w' : World) (v : Json),
    fetchCaseById net id w = (Return v, w') ->
    id <> ""
    /\ v <> JNull
    /\ Js.truthy (Some v) = true
    /\ trace w' = (trace w ++ [case_request id])%list
    /\ exists resp, net (trace w) (case_request id) = FetchResolves resp
                    /\ 200 <= resp_status resp <= 299
                    /\ resp_json resp = inr v.
Proof.
  intros net id w w' v H.
  assert (Hid : id <> "").
  { intros ->. discriminate H. }
  rewrite (fetchCaseById_run net id w Hid) in H.
  destruct (success (outcome_of _)) eqn:Hs; cbn [negb] in H; [|discriminate H].
  destruct (Js.truthy _) eqn:Ht; cbn [negb] in H; [|discriminate H].
  injection H as Hv Hw. subst w'. rewrite Hv in Ht.
  split; [exact Hid|]. split; [intros ->; discriminate Ht|]. split; [exact Ht|].
  split; [reflexivity|].
  destruct (net (trace w) (case_request id)) as [e | resp]; cbn in Hs, Hv; [discriminate Hs|].
  exists resp. destruct (resp_ok resp) eqn:Hok.
  - destruct (resp_json resp) as [e | d]; cbn in Hs, Hv; [discriminate Hs|].
    apply resp_ok_true in Hok. subst d. auto.
  - destruct (resp_text resp); discriminate Hs.
Qed.

Lemma fetchCaseById_returns_witness :
  exists w',
    fetchCaseById (constant_network (JObj [("id", JNum 42)])) "42" world0
      = (Return (JObj [("id", JNum 42)]), w')
    /\ trace w' = (trace world0 ++ [case_request "42"])%list.
Proof.
  eexists. split; [reflexivity|].
  apply (fetchCaseById_returns_only_a_present_case
           (constant_network (JObj [("id", JNum 42)])) "42" world0 _ _ eq_refl).
Defined.

(** X6. The three errors of [fetchCaseById]: an empty id raises
    "A valid case ID is required." and issues no request; a transport failure
    raises "Gat ekki sótt mál með ID: <id>."; a success outcome whose payload
    is falsy ([null], [false], [0] or the empty string) raises
    "Ekkert mál fannst með ID: <id>.". In the last two cases one request was
    issued. *)
Theorem fetchCaseById_errors :
  forall (net : Network) (id : string) (w : World),
    (id = "" ->
     fetchCaseById net id w = (Throw (Error "A valid case ID is required."), w))
    /\ (id <> "" ->
        success (outcome_of (net (trace w) (case_request id))) = false ->
        exists w', fetchCaseById net id w
                   = (Throw (Error ("Gat ekki sótt mál með ID: " ++ id ++ ".")), w')
                   /\ trace w' = (trace w ++ [case_request id])%list)
    /\ (id <> "" ->
        forall resp payload,
          net (trace w) (case_request id) = FetchResolves resp ->
          200 <= resp_status resp <= 299 ->
          resp_json resp = inr payload ->
          payload = JNull \/ payload = JBool false \/ payload = JNum 0 \/ payload = JStr "" ->
          exists w', fetchCaseById net id w
                     = (Throw (Error ("Ekkert mál fannst með ID: " ++ id ++ ".")), w')
                     /\ trace w' = (trace w ++ [case_request id])%list).
Proof.
  intros net id w. split; [|split].
  - intros ->. reflexivity.
  - intros Hid Hfail. rewrite (fetchCaseById_run net id w Hid), Hfail. cbn [negb].
    eexists. split; reflexivity.
  - intros Hid resp payload Hnet Hst Hj Hfalsy.
    rewrite (fetchCaseById_run net id w Hid), Hnet. apply resp_ok_true in Hst.
    cbn [outcome_of]. rewrite Hst, Hj. cbn [success data negb].
    destruct Hfalsy as [-> | [-> | [-> | ->]]]; cbn; eexists; split; reflexivity.
Qed.

Lemma fetchCaseById_errors_witness :
  fetchCaseById unreachable_network "" world0
    = (Throw (Error "A valid case ID is required."), world0)
  /\ (exists w', fetchCaseById not_found_network "42" world0
                 = (Throw (Error ("Gat ekki sótt mál með ID: " ++ "42" ++ ".")), w')
                 /\ trace w' = (trace world0 ++ [case_request "42"])%list)
  /\ (exists w', fetchCaseById null_body_network "42" world0
                 = (Throw (Error ("Ekkert mál fannst með ID: " ++ "42" ++ ".")), w')
                 /\ trace w' = (trace world0 ++ [case_request "42"])%list).
Proof.
  split; [|split].
  - apply (proj1 (fetchCaseById_errors unreachable_network "" world0)). reflexivity.
  - apply (proj1 (proj2 (fetchCaseById_errors not_found_network "42" world0)));
      [discriminate | reflexivity].
  - apply (proj2 (proj2 (fetchCaseById_errors null_body_network "42" world0))
             ltac:(discriminate) (json_response 200 JNull) JNull);
      [reflexivity | cbn; lia | reflexivity | now left].
Defined.

(** X7. [searchCases] makes a single attempt: whatever the network answers,
    exactly one request is issued, a [GET] of the case list with
    [pageSize=1500] and [orderBy=LastUpdated]. A [cases] value that is truthy
    is returned as it was received, without any check that it is an array. *)
Theorem searchCases_single_request_and_passthrough :
  forall (net : Network) (w : World),
    trace (snd (searchCases net w)) = (trace w ++ [search_request])%list
    /\ req_method search_request = "GET"
    /\ req_url search_request
       = "https://corsproxy.io/?https://samradapi.island.is/api/cases?pageSize=1500&orderBy=LastUpdated"
    /\ (forall resp payload v,
          net (trace w) search_request = FetchResolves resp ->
          200 <= resp_status resp <= 299 ->
          resp_json resp = inr payload ->
          Js.opt_chain (Some payload) "cases" = Some v ->
          Js.truthy (Some v) = true ->
          fst (searchCases net w) = Return v).
Proof.
  intros net w. unfold searchCases, bind.
  change [("pageSize", PStr "1500"); ("orderBy", PStr "LastUpdated")] with SEARCH_PARAMS.
  rewrite get_run. fold search_request. cbv zeta.
  split; [|split; [reflexivity | split; [reflexivity|]]].
  - destruct (success (outcome_of _)); reflexivity.
  - intros resp payload v Hnet Hst Hj Hcases Hv. rewrite Hnet. apply resp_ok_true in Hst.
    cbn [outcome_of]. rewrite Hst, Hj. cbn [success data negb ret fst].
    rewrite Hcases. unfold Js.or_else. now rewrite Hv.
Qed.

Lemma searchCases_passthrough_witness :
  fst (searchCases (constant_network (JObj [("cases", JStr "not a list")])) world0)
    = Return (JStr "not a list").
Proof.
  apply (proj2 (proj2 (proj2 (searchCases_single_request_and_passthrough
                                (constant_network (JObj [("cases", JStr "not a list")])) world0)))
           (json_response 200 (JObj [("cases", JStr "not a list")]))
           (JObj [("cases", JStr "not a list")]));
    [reflexivity | cbn; lia | reflexivity | reflexivity | reflexivity].
Defined.

Lemma fetchCaseComments_meta_run (net : Network) (id : string) (caseId : Z) (w : World) :
  Js.parseInt id = Some caseId ->
  success (outcome_of (net (trace w) (meta_request caseId))) = false ->
  fetchCaseComments net id w
    = (Throw (Error COMMENTS_MESSAGE),
       mkWorld (trace w ++ [meta_request caseId])
               (console w ++ call_logs (meta_call caseId) (net (trace w) (meta_request caseId)))).
Proof.
  intros Hid Hfail. unfold fetchCaseComments. rewrite Hid. unfold bind.
  rewrite postGraphQL_run. cbv zeta.
  unfold meta_request, meta_call in *. now rewrite Hfail.
Qed.

(** X8. When the existence check fails at the transport level (a rejected
    [fetch], a status outside [200,299], a body that does not parse),
    [fetchCaseComments] raises "Gat ekki sótt umsagnir fyrir mál." and the
    comments query is not issued. *)
Theorem fetchCaseComments_existence_check_failure :
  forall (net : Network) (id : string) (caseId : Z) (w : World),
    Js.parseInt id = Some caseId ->
    success (outcome_of (net (trace w) (meta_request caseId))) = false ->
    exists w',
      fetchCaseComments net id w = (Throw (Error COMMENTS_MESSAGE), w')
      /\ trace w' = (trace w ++ [meta_request caseId])%list.
Proof.
  intros net id caseId w Hid Hfail.
  rewrite (fetchCaseComments_meta_run net id caseId w Hid Hfail).
  eexists. split; reflexivity.
Qed.

Lemma fetchCaseComments_existence_check_failure_witness :
  exists w',
    fetchCaseComments unparseable_network "42" world0 = (Throw (Error COMMENTS_MESSAGE), w')
    /\ trace w' = (trace world0 ++ [meta_request 42])%list.
Proof.
  apply (fetchCaseComments_existence_check_failure unparseable_network "42" 42 world0);
    reflexivity.
Defined.

(** X9. When the case is found and the comments query fails at the transport
    level, [fetchCaseComments] raises "Gat ekki sótt umsagnir fyrir mál."
    after the two requests. *)
Theorem fetchCaseComments_comments_query_failure :
  forall (net : Network) (id : string) (caseId : Z) (w : World) (env1 : Json),
    Js.parseInt id = Some caseId ->
    graphql_ok net (trace w) (meta_request caseId) env1 ->
    case_present env1 ->
    success (outcome_of (net (trace w ++ [meta_request caseId])%list (advices_request caseId)))
      = false ->
    exists w',
      fetchCaseComments net id w = (Throw (Error COMMENTS_MESSAGE), w')
      /\ trace w' = (trace w ++ [meta_request caseId; advices_request caseId])%list.
Proof.
  intros net id caseId w env1 Hid Hok1 Hfound Hfail.
  unfold fetchCaseComments. rewrite Hid. unfold bind.
  rewrite postGraphQL_run. cbv zeta.
  destruct (graphql_ok_outcome _ _ _ _ Hok1) as (st1 & Ho1 & Hl1).
  unfold meta_request, meta_call in Ho1, Hl1. rewrite Ho1, Hl1.
  cbn [success negb]. unfold case_found. cbn [data].
  unfold case_present, reported_case in Hfound. rewrite Hfound. cbn [negb].
  rewrite postGraphQL_run. cbv zeta. cbn [trace console].
  unfold advices_request, advices_call, meta_request, meta_call in Hfail.
  rewrite Hfail. cbn [negb]. eexists. split; [reflexivity|].
  cbn [trace]. now rewrite <- app_assoc.
Qed.

Lemma fetchCaseComments_comments_query_failure_witness :
  exists w',
    fetchCaseComments (found_then (FetchRejects (mkError "TypeError" "Failed to fetch")))
      "42" world0
      = (Throw (Error COMMENTS_MESSAGE), w')
    /\ trace w' = (trace world0 ++ [meta_request 42; advices_request 42])%list.
Proof.
  apply (fetchCaseComments_comments_query_failure
           (found_then (FetchRejects (mkError "TypeError" "Failed to fetch"))) "42" 42 world0
           (JObj [("data", JObj [("consultationPortalCaseById", JObj [("id", JNum 42)])])])).
  - reflexivity.
  - eexists. split; [reflexivity|]. split; [cbn; lia | reflexivity].
  - reflexivity.
  - reflexivity.
Defined.

(** X10. [fetchCaseComments] issues no request for an id that does not
    parse, and otherwise the existence check alone or the existence check
    followed by the comments query: never more than two requests, never the
    comments query on its own, and no retry. *)
Theorem fetchCaseComments_requests :
  forall (net : Network) (id : string) (w : World),
    let w' := snd (fetchCaseComments net id w) in
    (Js.parseInt id = None /\ trace w' = trace w)
    \/ (exists caseId,
          Js.parseInt id = Some caseId
          /\ (trace w' = (trace w ++ [meta_request caseId])%list
              \/ trace w' = (trace w ++ [meta_request caseId; advices_request caseId])%list)).
Proof.
  intros net id w w'. subst w'. unfold fetchCaseComments.
  destruct (Js.parseInt id) as [caseId|]; [right | left; split; reflexivity].
  exists caseId. split; [reflexivity|]. unfold bind.
  rewrite postGraphQL_run. cbv zeta.
  destruct (success (outcome_of _)); cbn [negb]; [|left; reflexivity].
  destruct (case_found _); cbn [negb]; [|left; reflexivity].
  right. rewrite postGraphQL_run. cbv zeta. cbn [trace console].
  rewrite <- app_assoc. cbn [app].
  destruct (success (outcome_of _)); cbn [negb]; [|reflexivity].
  destruct (advice_items _) as [| | | |[|a rest]|]; reflexivity.
Qed.

(** X11. The existence check reads the case id by truthiness: a case
    reported with the id [0] (or with an empty-string or [false] id) is
    treated as absent, and [fetchCaseComments] returns the empty sequence
    without issuing the comments query. *)
Theorem fetchCaseComments_falsy_case_id_is_absent :
  forall (net : Network) (id : string) (caseId : Z) (w : World) (envelope : Json),
    Js.parseInt id = Some caseId ->
    graphql_ok net (trace w) (meta_request caseId) envelope ->
    Js.opt_chain (reported_case envelope) "id" = Some (JNum 0)
    \/ Js.opt_chain (reported_case envelope) "id" = Some (JStr "")
    \/ Js.opt_chain (reported_case envelope) "id" = Some (JBool false) ->
    fetchCaseComments net id w
      = (Return [], mkWorld (trace w ++ [meta_request caseId]) (console w)).
Proof.
  intros net id caseId w envelope Hid Hok Hfalsy.
  apply (fetchCaseComments_not_found net id caseId w envelope); auto.
  destruct Hfalsy as [-> | [-> | ->]]; reflexivity.
Qed.

Lemma fetchCaseComments_falsy_case_id_witness :
  fetchCaseComments
    (constant_network (JObj [("data", JObj [("consultationPortalCaseById", JObj [("id", JNum 0)])])]))
    "0" world0
  = (Return [], mkWorld (trace world0 ++ [meta_request 0]) (console world0)).
Proof.
  apply (fetchCaseComments_falsy_case_id_is_absent _ "0" 0 world0
           (JObj [("data", JObj [("consultationPortalCaseById", JObj [("id", JNum 0)])])])).
  - reflexivity.
  - eexists. split; [reflexivity|]. split; [cbn; lia | reflexivity].
  - left. reflexivity.
Defined.

(** X12. When the comments query answers with a value that is not an array
    (an object, a string, a number, a boolean), [fetchCaseComments] returns
    the empty sequence rather than raising. *)
Theorem fetchCaseComments_non_array_advices :
  forall (net : Network) (id : string) (caseId : Z) (w : World) (env1 env2 v : Json),
    Js.parseInt id = Some caseId ->
    graphql_ok net (trace w) (meta_request caseId) env1 ->
    case_present env1 ->
    graphql_ok net (trace w ++ [meta_request caseId]) (advices_request caseId) env2 ->
    reported_advices env2 = Some v ->
    (forall items, v <> JArr items) ->
    fetchCaseComments net id w
      = (Return [], mkWorld (trace w ++ [meta_request caseId; advices_request caseId]) (console w)).
Proof.
  intros net id caseId w env1 env2 v Hid Hok1 Hfound Hok2 Hv Hnot.
  rewrite (fetchCaseComments_found net id caseId w env1 env2) by assumption.
  rewrite Hv. destruct v as [| | | |items|]; try reflexivity.
  now contradiction (Hnot items).
Qed.

Lemma fetchCaseComments_non_array_witness :
  fetchCaseComments
    (found_then (FetchResolves
                   (json_response 200
                      (JObj [("data", JObj [("consultationPortalAdviceByCaseId", JStr "none")])]))))
    "42" world0
  = (Return [], mkWorld (trace world0 ++ [meta_request 42; advices_request 42]) (console world0)).
Proof.
  apply (fetchCaseComments_non_array_advices _ "42" 42 world0
           (JObj [("data", JObj [("consultationPortalCaseById", JObj [("id", JNum 42)])])])
           (JObj [("data", JObj [("consultationPortalAdviceByCaseId", JStr "none")])])
           (JStr "none")).
  - reflexivity.
  - eexists. split; [reflexivity|]. split; [cbn; lia | reflexivity].
  - reflexivity.
  - eexists. split; [reflexivity|]. split; [cbn; lia | reflexivity].
  - reflexivity.
  - discriminate.
Defined.

Lemma array_map_null_raises (caseId : Z) (items : list Json) :
  In JNull items ->
  exists e, array_map (toCaseComment caseId) items = Throw e /\ err_name e = "TypeError".
Proof.
  induction items as [|a rest IH]; [contradiction|].
  intros [-> | Hin].
  - eexists. split; reflexivity.
  - destruct (IH Hin) as (e & He & Hn). cbn [array_map].
    destruct (toCaseComment caseId a) as [c | e'] eqn:Ha.
    + rewrite He. eauto.
    + exists e'. split; [reflexivity|].
      apply (array_map_throws_TypeError caseId [a]). cbn [array_map]. now rewrite Ha.
Qed.

(** X13. A [null] among the records returned by the comments query makes
    [fetchCaseComments] fail with a [TypeError] from reading a property of
    [null]: the failure is not converted to the domain error, and no comment
    is returned. *)
Theorem fetchCaseComments_null_record_raises_TypeError :
  forall (net : Network) (id : string) (caseId : Z) (w : World)
         (env1 env2 : Json) (items : list Json),
    Js.parseInt id = Some caseId ->
    graphql_ok net (trace w) (meta_request caseId) env1 ->
    case_present env1 ->
    graphql_ok net (trace w ++ [meta_request caseId]) (advices_request caseId) env2 ->
    reported_advices env2 = Some (JArr items) ->
    In JNull items ->
    exists e,
      fst (fetchCaseComments net id w) = Throw e
      /\ err_name e = "TypeError"
      /\ e <> Error COMMENTS_MESSAGE.
Proof.
  intros net id caseId w env1 env2 items Hid Hok1 Hfound Hok2 Hitems Hnull.
  rewrite (fetchCaseComments_found net id caseId w env1 env2) by assumption.
  rewrite Hitems. cbn [Js.nullish fst].
  destruct items as [|a rest]; [contradiction|].
  destruct (array_map_null_raises caseId (a :: rest) Hnull) as (e & He & Hn).
  exists e. split; [exact He|]. split; [exact Hn|].
  intros ->. discriminate Hn.
Qed.

Lemma fetchCaseComments_null_record_witness :
  exists e,
    fst (fetchCaseComments
           (found_then (FetchResolves
                          (json_response 200
                             (JObj [("data", JObj [("consultationPortalAdviceByCaseId",
                                                    JArr [signed_advice; JNull])])]))))
           "42" world0) = Throw e
    /\ err_name e = "TypeError"
    /\ e <> Error COMMENTS_MESSAGE.
Proof.
  apply (fetchCaseComments_null_record_raises_TypeError _ "42" 42 world0
           (JObj [("data", JObj [("consultationPortalCaseById", JObj [("id", JNum 42)])])])
           (JObj [("data", JObj [("consultationPortalAdviceByCaseId",
                                  JArr [signed_advice; JNull])])])
           [signed_advice; JNull]).
  - reflexivity.
  - eexists. split; [reflexivity|]. split; [cbn; lia | reflexivity].
  - reflexivity.
  - eexists. split; [reflexivity|]. split; [cbn; lia | reflexivity].
  - reflexivity.
  - right. left. reflexivity.
Defined.

Lemma trimStart_leading_spaces (ws s : string) :
  all_space1 ws = true -> Js.trimStart (ws ++ s) = Js.trimStart s.
Proof.
  unfold all_space1. induction ws as [|c ws IH]; intros H; [reflexivity|].
  cbn in H. apply andb_true_iff in H as [Hc Hws].
  cbn [append Js.trimStart]. rewrite Hc. now apply IH.
Qed.


(** X14. Leading white space (spaces, tabs, line breaks) in the id is
    ignored: [fetchCaseComments] does on the padded id exactly what it does
    on the id without the padding. *)
Theorem fetchCaseComments_ignores_leading_spaces :
  forall (net : Network) (ws id : string) (w : World),
    all_space1 ws = true ->
    Js.parseInt (ws ++ id) = Js.parseInt id
    /\ fetchCaseComments net (ws ++ id) w = fetchCaseComments net id w.
Proof.
  intros net ws id w Hws.
  assert (Hp : Js.parseInt (ws ++ id) = Js.parseInt id).
  { unfold Js.parseInt. now rewrite trimStart_leading_spaces. }
  split; [exact Hp|]. unfold fetchCaseComments. now rewrite Hp.
Qed.

Lemma fetchCaseComments_leading_spaces_witness :
  Js.parseInt ("  " ++ "42") = Js.parseInt "42"
  /\ fetchCaseComments absent_case_network ("  " ++ "42") world0
     = fetchCaseComments absent_case_network "42" world0.
Proof.
  apply (fetchCaseComments_ignores_leading_spaces absent_case_network "  " "42" world0).
  reflexivity.
Defined.




(** ** Properties of the older client and of the repository built on it *)

Ltac run_legacy :=
  unfold HttpErrorClient.get, HttpErrorClient.try_catch, HttpErrorClient.bind,
    HttpErrorClient.fetch, HttpErrorClient.lift, HttpErrorClient.console_error,
    HttpErrorClient.console_warn, HttpErrorClient.ret, HttpErrorClient.throw; cbn.

Lemma legacy_get_run (net : Network) (this : ApiClient) endpoint params
    (s : HttpErrorClient.State) :
  let req := HttpErrorClient.get_request this endpoint params in
  let o := net (trace (HttpErrorClient.world s)) req in
  exists logs,
    HttpErrorClient.get net this endpoint params s
    = (HttpErrorClient.result_of o,
       HttpErrorClient.mkState
         (mkWorld (trace (HttpErrorClient.world s) ++ [req])
                  (console (HttpErrorClient.world s) ++ logs))
         (HttpErrorClient.warnings s))
    /\ (forall d, HttpErrorClient.result_of o = HttpErrorClient.Ok d -> logs = [])
    /\ (forall m st b, HttpErrorClient.result_of o
                       = HttpErrorClient.Raise (HttpErrorClient.HttpError m st b) ->
                       List.length logs = 2%nat).
Proof.
  unfold HttpErrorClient.get_request. run_legacy.
  destruct (net (trace (HttpErrorClient.world s)) _) as [e | r]; cbn.
  - eexists. split; [reflexivity | split; discriminate].
  - destruct (resp_ok r); cbn.
    + destruct (resp_json r); cbn.
      * eexists. split; [reflexivity | split; discriminate].
      * exists []. rewrite app_nil_r. destruct s as [[tr co] wa].
        split; [reflexivity | split; [reflexivity | discriminate]].
    + destruct (resp_text r); cbn.
      * eexists. split; [reflexivity | split; discriminate].
      * eexists. rewrite <- app_assoc. split; [reflexivity | split; [discriminate | reflexivity]].
Qed.

(** X16. The older [get] turns a response with a status outside [200,299]
    into a thrown [HttpError] carrying that status and the body text; one
    request is issued, and the failure is written to the console twice (once
    where it is detected, once in the [catch] that rethrows it). *)
Theorem legacy_get_throws_HttpError :
  forall (net : Network) (this : ApiClient) (endpoint : string)
         (params : list (string * ParamValue)) (s : HttpErrorClient.State)
         (resp : Response) (text : string),
    net (trace (HttpErrorClient.world s)) (HttpErrorClient.get_request this endpoint params)
      = FetchResolves resp ->
    resp_status resp < 200 \/ 299 < resp_status resp ->
    resp_text resp = inr text ->
    exists first second,
      HttpErrorClient.get net this endpoint params s
      = (HttpErrorClient.Raise
           (HttpErrorClient.HttpError (http_message (resp_status resp)) (resp_status resp) text),
         HttpErrorClient.mkState
           (mkWorld (trace (HttpErrorClient.world s)
                     ++ [HttpErrorClient.get_request this endpoint params])
                    (console (HttpErrorClient.world s) ++ [first; second]))
           (HttpErrorClient.warnings s)).
Proof.
  intros net this endpoint params s resp text Hnet Hst Ht.
  apply resp_ok_false in Hst. unfold HttpErrorClient.get_request in Hnet.
  run_legacy. rewrite Hnet. cbn. rewrite Hst. cbn. rewrite Ht. cbn.
  rewrite <- app_assoc. eexists. eexists. reflexivity.
Qed.

Lemma legacy_get_throws_HttpError_witness :
  exists first second,
    HttpErrorClient.get (status_network 500 "boom") apiClient "/api/cases" [] HttpErrorClient.state0
    = (HttpErrorClient.Raise (HttpErrorClient.HttpError (http_message 500) 500 "boom"),
       HttpErrorClient.mkState
         (mkWorld (trace (HttpErrorClient.world HttpErrorClient.state0)
                   ++ [HttpErrorClient.get_request apiClient "/api/cases" []])
                  (console (HttpErrorClient.world HttpErrorClient.state0) ++ [first; second]))
         (HttpErrorClient.warnings HttpErrorClient.state0)).
Proof.
  apply (legacy_get_throws_HttpError (status_network 500 "boom") apiClient "/api/cases" []
           HttpErrorClient.state0
           (mkResponse 500 (inr "boom") (inl (mkError "SyntaxError" "Unexpected token")))).
  - reflexivity.
  - cbn. lia.
  - reflexivity.
Defined.

(** X17. The older [get] throws values of two forms only: an [HttpError]
    for a received response with a status outside [200,299], whose status and
    body it carries, or a plain [Error] with the network-failure message.
    The error that [fetch] or the body parser raised is never what the
    caller receives. When [get] returns, a 2xx response was received and the
    value is its parsed body. *)
Theorem legacy_get_outcomes :
  forall (net : Network) (this : ApiClient) (endpoint : string)
         (params : list (string * ParamValue)) (s : HttpErrorClient.State),
    let o := net (trace (HttpErrorClient.world s))
                 (HttpErrorClient.get_request this endpoint params) in
    match fst (HttpErrorClient.get net this endpoint params s) with
    | HttpErrorClient.Ok d =>
        exists resp, o = FetchResolves resp /\ 200 <= resp_status resp <= 299
                     /\ resp_json resp = inr d
    | HttpErrorClient.Raise (HttpErrorClient.HttpError m st text) =>
        exists resp, o = FetchResolves resp /\ (st < 200 \/ 299 < st)
                     /\ resp_status resp = st /\ resp_text resp = inr text
                     /\ m = http_message st
    | HttpErrorClient.Raise (HttpErrorClient.Other e) => e = Error NETWORK_MESSAGE
    end.
Proof.
  intros net this endpoint params s o.
  destruct (legacy_get_run net this endpoint params s) as (logs & Hrun & _).
  rewrite Hrun. cbn [fst]. fold o.
  destruct o as [e | resp]; cbn; [reflexivity|].
  destruct (resp_ok resp) eqn:Hok.
  - destruct (resp_json resp) eqn:Hj; [reflexivity|].
    exists resp. apply resp_ok_true in Hok. auto.
  - destruct (resp_text resp) eqn:Ht; [reflexivity|].
    exists resp. apply resp_ok_false in Hok. auto.
Qed.

Lemma legacy_comments_run (net : Network) (id : string) (s : HttpErrorClient.State) :
  let req := HttpErrorClient.submissions_request id in
  let o := net (trace (HttpErrorClient.world s)) req in
  exists logs warns,
    HttpErrorClient.fetchCaseComments net id s
    = (match HttpErrorClient.result_of o with
       | HttpErrorClient.Ok d => HttpErrorClient.Ok (Js.or_else (Some d) (JArr []))
       | HttpErrorClient.Raise t =>
           if match HttpErrorClient.status_of t with Some st => st =? 404 | None => false end
           then HttpErrorClient.Ok (JArr [])
           else HttpErrorClient.Raise (HttpErrorClient.Other (Error COMMENTS_MESSAGE))
       end,
       HttpErrorClient.mkState
         (mkWorld (trace (HttpErrorClient.world s) ++ [req])
                  (console (HttpErrorClient.world s) ++ logs))
         (HttpErrorClient.warnings s ++ warns))
    /\ (List.length warns = 1%nat <->
        exists m b, HttpErrorClient.result_of o
                    = HttpErrorClient.Raise (HttpErrorClient.HttpError m 404 b))
    /\ (List.length warns = 0%nat \/ List.length warns = 1%nat).
Proof.
  cbv zeta. unfold HttpErrorClient.fetchCaseComments.
  unfold HttpErrorClient.try_catch at 1. unfold HttpErrorClient.bind at 1.
  destruct (legacy_get_run net apiClient ("/api/cases/" ++ id ++ "/submissions") [] s)
    as (logs & Hrun & _).
  fold (HttpErrorClient.submissions_request id) in Hrun.
  unfold HttpErrorClient.get_request in Hrun. fold (HttpErrorClient.submissions_request id) in Hrun.
  rewrite Hrun.
  destruct (HttpErrorClient.result_of _) as [d | t].
  - exists logs, []. cbn. rewrite app_nil_r.
    split; [reflexivity|]. split; [|now left].
    split; [discriminate | intros (m & b & H); discriminate H].
  - destruct t as [m st b | e]; cbn [HttpErrorClient.status_of].
    + destruct (st =? 404) eqn:Hst.
      * apply Z.eqb_eq in Hst. subst st. run_legacy.
        exists logs. eexists. split; [reflexivity|]. split; [|now right].
        split; [eauto | reflexivity].
      * run_legacy. eexists (logs ++ [_])%list. exists []. rewrite app_nil_r, app_assoc.
        split; [reflexivity|]. split; [|now left].
        split; [discriminate|]. intros (m' & b' & H). injection H as _ H _.
        subst st. discriminate Hst.
    + run_legacy. eexists (logs ++ [_])%list. exists []. rewrite app_nil_r, app_assoc.
      split; [reflexivity|]. split; [|now left].
      split; [discriminate | intros (m' & b' & H); discriminate H].
Qed.

(** X18. The repository on the older client treats a 404 on the submissions
    endpoint as "no comments": [fetchCaseComments] returns the empty list,
    after one request, and leaves one [console.warn] entry. *)
Theorem rest_fetchCaseComments_404_is_empty :
  forall (net : Network) (id : string) (s : HttpErrorClient.State)
         (resp : Response) (text : string),
    net (trace (HttpErrorClient.world s)) (HttpErrorClient.submissions_request id)
      = FetchResolves resp ->
    resp_status resp = 404 ->
    resp_text resp = inr text ->
    exists s',
      HttpErrorClient.fetchCaseComments net id s = (HttpErrorClient.Ok (JArr []), s')
      /\ trace (HttpErrorClient.world s')
         = (trace (HttpErrorClient.world s) ++ [HttpErrorClient.submissions_request id])%list
      /\ exists warning,
           HttpErrorClient.warnings s' = (HttpErrorClient.warnings s ++ [warning])%list.
Proof.
  intros net id s resp text Hnet Hst Ht.
  destruct (legacy_comments_run net id s) as (logs & warns & Hrun & Hone & _).
  cbv zeta in Hrun, Hone. rewrite Hnet in Hrun, Hone.
  assert (Hres : HttpErrorClient.result_of (FetchResolves resp)
                 = HttpErrorClient.Raise
                     (HttpErrorClient.HttpError (http_message 404) 404 text)).
  { cbn. unfold resp_ok. rewrite Hst, Ht. reflexivity. }
  rewrite Hres in Hrun, Hone. cbn in Hrun.
  eexists. split; [exact Hrun|]. split; [reflexivity|]. cbn.
  assert (Hlen : List.length warns = 1%nat) by (apply Hone; eauto).
  destruct warns as [|x [|y warns]]; try discriminate Hlen. eauto.
Qed.

Lemma rest_fetchCaseComments_404_witness :
  exists s',
    HttpErrorClient.fetchCaseComments (status_network 404 "Not Found") "42" HttpErrorClient.state0
      = (HttpErrorClient.Ok (JArr []), s')
    /\ trace (HttpErrorClient.world s')
       = (trace (HttpErrorClient.world HttpErrorClient.state0)
          ++ [HttpErrorClient.submissions_request "42"])%list
    /\ exists warning,
         HttpErrorClient.warnings s'
         = (HttpErrorClient.warnings HttpErrorClient.state0 ++ [warning])%list.
Proof.
  apply (rest_fetchCaseComments_404_is_empty (status_network 404 "Not Found") "42"
           HttpErrorClient.state0
           (mkResponse 404 (inr "Not Found") (inl (mkError "SyntaxError" "Unexpected token")))
           "Not Found"); reflexivity.
Defined.

(** X19. Apart from the 404, every failure of the submissions request makes
    the older [fetchCaseComments] raise the one error
    "Gat ekki sótt umsagnir fyrir mál.": a rejected [fetch], and a response
    with any other status outside [200,299]. It raises nothing else. *)
Theorem rest_fetchCaseComments_raises_the_domain_error :
  forall (net : Network) (id : string) (s : HttpErrorClient.State),
    let o := net (trace (HttpErrorClient.world s)) (HttpErrorClient.submissions_request id) in
    let raised := HttpErrorClient.Raise (HttpErrorClient.Other (Error COMMENTS_MESSAGE)) in
    (forall t, fst (HttpErrorClient.fetchCaseComments net id s) = HttpErrorClient.Raise t ->
               t = HttpErrorClient.Other (Error COMMENTS_MESSAGE))
    /\ (forall e, o = FetchRejects e ->
                  fst (HttpErrorClient.fetchCaseComments net id s) = raised)
    /\ (forall resp text,
          o = FetchResolves resp ->
          resp_status resp < 200 \/ 299 < resp_status resp ->
          resp_status resp <> 404 ->
          resp_text resp = inr text ->
          fst (HttpErrorClient.fetchCaseComments net id s) = raised).
Proof.
  intros net id s o raised.
  destruct (legacy_comments_run net id s) as (logs & warns & Hrun & _).
  cbv zeta in Hrun. fold o in Hrun. rewrite Hrun. cbn [fst].
  split; [|split].
  - intros t. destruct (HttpErrorClient.result_of o) as [d | t']; [discriminate|].
    destruct (match HttpErrorClient.status_of t' with Some st => st =? 404 | None => false end);
      [discriminate|]. intros H. now injection H as <-.
  - intros e ->. reflexivity.
  - intros resp text -> Hst Hne Ht. apply resp_ok_false in Hst.
    cbn. rewrite Hst, Ht. cbn. apply Z.eqb_neq in Hne. now rewrite Hne.
Qed.

Lemma rest_fetchCaseComments_raises_witness :
  fst (HttpErrorClient.fetchCaseComments unreachable_network "42" HttpErrorClient.state0)
    = HttpErrorClient.Raise (HttpErrorClient.Other (Error COMMENTS_MESSAGE))
  /\ fst (HttpErrorClient.fetchCaseComments (status_network 500 "boom") "42" HttpErrorClient.state0)
     = HttpErrorClient.Raise (HttpErrorClient.Other (Error COMMENTS_MESSAGE)).
Proof.
  split.
  - apply (proj1 (proj2 (rest_fetchCaseComments_raises_the_domain_error
                           unreachable_network "42" HttpErrorClient.state0))
             (mkError "TypeError" "Failed to fetch")).
    reflexivity.
  - apply (proj2 (proj2 (rest_fetchCaseComments_raises_the_domain_error
                           (status_network 500 "boom") "42" HttpErrorClient.state0))
             (mkResponse 500 (inr "boom") (inl (mkError "SyntaxError" "Unexpected token")))
             "boom").
    + reflexivity.
    + cbn. lia.
    + cbn. lia.
    + reflexivity.
Defined.

Lemma append_empty_r (s : string) : s ++ "" = s.
Proof. induction s as [|c s IH]; cbn; congruence. Qed.

(** X20. The older [fetchCaseComments] does not validate the id: for every
    id, also the empty one and one that is not a number, it issues exactly
    one request, for [/api/cases/<id>/submissions]. A 2xx response whose
    body is [null] gives the empty list. *)
Theorem rest_fetchCaseComments_sends_any_id :
  forall (net : Network) (id : string) (s : HttpErrorClient.State),
    trace (HttpErrorClient.world (snd (HttpErrorClient.fetchCaseComments net id s)))
      = (trace (HttpErrorClient.world s) ++ [HttpErrorClient.submissions_request id])%list
    /\ req_url (HttpErrorClient.submissions_request id)
       = CORS_PROXY_URL ++ API_BASE_URL ++ "/api/cases/" ++ id ++ "/submissions"
    /\ (forall resp,
          net (trace (HttpErrorClient.world s)) (HttpErrorClient.submissions_request id)
            = FetchResolves resp ->
          200 <= resp_status resp <= 299 ->
          resp_json resp = inr JNull ->
          fst (HttpErrorClient.fetchCaseComments net id s) = HttpErrorClient.Ok (JArr [])).
Proof.
  intros net id s.
  destruct (legacy_comments_run net id s) as (logs & warns & Hrun & _).
  cbv zeta in Hrun. rewrite Hrun. cbn [fst snd HttpErrorClient.world trace].
  split; [reflexivity|]. split.
  - unfold HttpErrorClient.submissions_request, get_url. cbn [req_url map URLSearchParams.toString].
    cbn [String.eqb]. now rewrite append_empty_r.
  - intros resp -> Hst Hj. apply resp_ok_true in Hst. cbn. now rewrite Hst, Hj.
Qed.

Lemma rest_fetchCaseComments_any_id_witness :
  trace (HttpErrorClient.world
           (snd (HttpErrorClient.fetchCaseComments null_body_network "abc" HttpErrorClient.state0)))
    = [HttpErrorClient.submissions_request "abc"]
  /\ fst (HttpErrorClient.fetchCaseComments null_body_network "abc" HttpErrorClient.state0)
     = HttpErrorClient.Ok (JArr []).
Proof.
  destruct (rest_fetchCaseComments_sends_any_id null_body_network "abc" HttpErrorClient.state0)
    as (Htrace & _ & Hnull).
  split; [exact Htrace|].
  apply (Hnull (json_response 200 JNull)); [reflexivity | cbn; lia | reflexivity].
Defined.

Lemma legacy_searchCases_run (net : Network) (s : HttpErrorClient.State) :
  let o := net (trace (HttpErrorClient.world s)) search_request in
  fst (HttpErrorClient.searchCases net s)
  = match HttpErrorClient.result_of o with
    | HttpErrorClient.Ok JNull => HttpErrorClient.Raise (HttpErrorClient.null_TypeError "cases")
    | HttpErrorClient.Ok d => HttpErrorClient.Ok (Js.or_else (Js.prop d "cases") (JArr []))
    | HttpErrorClient.Raise t => HttpErrorClient.Raise t
    end.
Proof.
  cbv zeta. unfold HttpErrorClient.searchCases.
  unfold HttpErrorClient.try_catch at 1. unfold HttpErrorClient.bind at 1.
  destruct (legacy_get_run net apiClient "/api/cases"
              [("pageSize", PStr "1500"); ("orderBy", PStr "LastUpdated")] s)
    as (logs & Hrun & _).
  change (HttpErrorClient.get_request apiClient "/api/cases"
            [("pageSize", PStr "1500"); ("orderBy", PStr "LastUpdated")])
    with search_request in Hrun.
  rewrite Hrun.
  destruct (HttpErrorClient.result_of _) as [d | t]; [destruct d|]; reflexivity.
Qed.

(** X21. The two versions of [searchCases] differ on a 2xx response whose
    body is [null]: the older one reads [data.cases] of [null] and raises a
    [TypeError], the one on [ApiResponse] returns the empty sequence. *)
Theorem searchCases_null_body_old_and_new :
  forall (net : Network) (s : HttpErrorClient.State) (w : World) (resp : Response),
    net (trace (HttpErrorClient.world s)) search_request = FetchResolves resp ->
    net (trace w) search_request = FetchResolves resp ->
    200 <= resp_status resp <= 299 ->
    resp_json resp = inr JNull ->
    fst (HttpErrorClient.searchCases net s)
      = HttpErrorClient.Raise (HttpErrorClient.null_TypeError "cases")
    /\ fst (searchCases net w) = Return (JArr []).
Proof.
  intros net s w resp Hold Hnew Hst Hj. apply resp_ok_true in Hst. split.
  - rewrite legacy_searchCases_run, Hold. cbn. now rewrite Hst, Hj.
  - unfold searchCases, bind.
    change [("pageSize", PStr "1500"); ("orderBy", PStr "LastUpdated")] with SEARCH_PARAMS.
    rewrite get_run. fold search_request. cbv zeta. rewrite Hnew.
    cbn [outcome_of]. now rewrite Hst, Hj.
Qed.

Lemma searchCases_null_body_witness :
  fst (HttpErrorClient.searchCases null_body_network HttpErrorClient.state0)
    = HttpErrorClient.Raise (HttpErrorClient.null_TypeError "cases")
  /\ fst (searchCases null_body_network world0) = Return (JArr []).
Proof.
  apply (searchCases_null_body_old_and_new null_body_network HttpErrorClient.state0 world0
           (json_response 200 JNull)); [reflexivity | reflexivity | cbn; lia | reflexivity].
Defined.

(** X22. The older [searchCases] passes on what its client throws as it is:
    an [HttpError] reaches the caller with its status and body, and a network
    failure as the plain [Error] with the network-failure message. *)
Theorem legacy_searchCases_rethrows_unchanged :
  forall (net : Network) (s : HttpErrorClient.State) (t : HttpErrorClient.Thrown),
    fst (HttpErrorClient.get net apiClient "/api/cases" SEARCH_PARAMS s)
      = HttpErrorClient.Raise t ->
    fst (HttpErrorClient.searchCases net s) = HttpErrorClient.Raise t
    /\ ((exists st text, t = HttpErrorClient.HttpError (http_message st) st text)
        \/ t = HttpErrorClient.Other (Error NETWORK_MESSAGE)).
Proof.
  intros net s t Hget.
  destruct (legacy_get_run net apiClient "/api/cases" SEARCH_PARAMS s) as (logs & Hrun & _).
  cbv zeta in Hrun. rewrite Hrun in Hget. cbn [fst] in Hget.
  change (HttpErrorClient.get_request apiClient "/api/cases" SEARCH_PARAMS)
    with search_request in Hget.
  assert (Hform : (exists st text, t = HttpErrorClient.HttpError (http_message st) st text)
                  \/ t = HttpErrorClient.Other (Error NETWORK_MESSAGE)).
  { destruct (net (trace (HttpErrorClient.world s)) search_request) as [e | resp];
      cbn in Hget; [injection Hget as <-; now right|].
    destruct (resp_ok resp); [destruct (resp_json resp) | destruct (resp_text resp)];
      try discriminate Hget; injection Hget as <-;
      solve [now right | left; eexists; eexists; reflexivity]. }
  split; [|exact Hform].
  rewrite legacy_searchCases_run, Hget. reflexivity.
Qed.

Lemma legacy_searchCases_rethrows_witness :
  fst (HttpErrorClient.searchCases (status_network 503 "busy") HttpErrorClient.state0)
    = HttpErrorClient.Raise (HttpErrorClient.HttpError (http_message 503) 503 "busy").
Proof.
  apply (proj1 (legacy_searchCases_rethrows_unchanged (status_network 503 "busy")
                  HttpErrorClient.state0
                  (HttpErrorClient.HttpError (http_message 503) 503 "busy")
                  eq_refl)).
Defined.

(** X23. The two versions of [fetchCaseById] differ on a 2xx response whose
    body is [null]: the older one returns [null] to its caller, the one on
    [ApiResponse] raises "Ekkert mál fannst með ID: <id>.". Both issue one
    request for a non-empty id. *)
Theorem fetchCaseById_null_body_old_and_new :
  forall (net : Network) (id : string) (s : HttpErrorClient.State) (w : World)
         (resp : Response),
    id <> "" ->
    net (trace (HttpErrorClient.world s)) (case_request id) = FetchResolves resp ->
    net (trace w) (case_request id) = FetchResolves resp ->
    200 <= resp_status resp <= 299 ->
    resp_json resp = inr JNull ->
    fst (HttpErrorClient.fetchCaseById net id s) = HttpErrorClient.Ok JNull
    /\ fst (fetchCaseById net id w)
       = Throw (Error ("Ekkert mál fannst með ID: " ++ id ++ ".")).
Proof.
  intros net id s w resp Hid Hold Hnew Hst Hj. apply resp_ok_true in Hst. split.
  - unfold HttpErrorClient.fetchCaseById.
    destruct (String.eqb_spec id "") as [-> | _]; [congruence|].
    unfold HttpErrorClient.try_catch at 1. unfold HttpErrorClient.bind at 1.
    destruct (legacy_get_run net apiClient ("/api/cases/" ++ id) [] s) as (logs & Hrun & _).
    change (HttpErrorClient.get_request apiClient ("/api/cases/" ++ id) [])
      with (case_request id) in Hrun.
    rewrite Hrun, Hold. cbn [HttpErrorClient.result_of]. now rewrite Hst, Hj.
  - rewrite (fetchCaseById_run net id w Hid), Hnew.
    cbn [outcome_of]. now rewrite Hst, Hj.
Qed.

Lemma fetchCaseById_null_body_witness :
  fst (HttpErrorClient.fetchCaseById null_body_network "42" HttpErrorClient.state0)
    = HttpErrorClient.Ok JNull
  /\ fst (fetchCaseById null_body_network "42" world0)
     = Throw (Error ("Ekkert mál fannst með ID: " ++ "42" ++ ".")).
Proof.
  apply (fetchCaseById_null_body_old_and_new null_body_network "42" HttpErrorClient.state0
           world0 (json_response 200 JNull));
    [discriminate | reflexivity | reflexivity | cbn; lia | reflexivity].
Defined.

(** ** Properties of the mapping of advices with files *)

Lemma split_length (sep : ascii) (s : string) :
  List.length (AdviceFiles.split sep s) = S (count_char sep s).
Proof.
  induction s as [|c s IH]; [reflexivity|].
  cbn [AdviceFiles.split count_char]. rewrite (Ascii.eqb_sym sep c).
  destruct (Ascii.eqb c sep).
  - cbn [List.length]. now rewrite IH.
  - destruct (AdviceFiles.split sep s) as [|seg rest]; [discriminate IH | exact IH].
Qed.

Lemma pop_cons (x : string) (l : list string) (e : string) :
  AdviceFiles.pop l = Some e -> AdviceFiles.pop (x :: l) = Some e.
Proof. destruct l as [|y l]; [discriminate | intros H; exact H]. Qed.

Lemma pop_split_decomposition (s : string) :
  exists pre ext,
    AdviceFiles.pop (AdviceFiles.split "." s) = Some ext
    /\ s = pre ++ ext
    /\ count_char "." ext = 0%nat
    /\ (count_char "." s = 0%nat -> pre = "")
    /\ (count_char "." s <> 0%nat -> exists p, pre = p ++ ".").
Proof.
  induction s as [|c s (pre & ext & Hpop & Hs & Hext & Hnone & Hsome)].
  - exists "", "". repeat split; [intros H; now contradiction H].
  - pose proof (split_length "." s) as Hlen.
    cbn [AdviceFiles.split count_char]. rewrite (Ascii.eqb_sym "." c).
    destruct (Ascii.eqb_spec c ".") as [-> | Hc].
    + exists (String "." pre), ext.
      split; [now apply pop_cons|]. split; [cbn; now rewrite <- Hs|].
      split; [exact Hext|]. split; [discriminate|]. intros _.
      destruct (Nat.eq_dec (count_char "." s) 0) as [Hz | Hnz].
      * rewrite (Hnone Hz). now exists "".
      * destruct (Hsome Hnz) as (p & ->). now exists (String "." p).
    + destruct (AdviceFiles.split "." s) as [|seg [|seg2 rest]]; [discriminate Hpop| |].
      * injection Hpop as ->. cbn in Hlen. assert (Hz : count_char "." s = 0%nat) by lia.
        rewrite (Hnone Hz) in Hs. cbn in Hs. subst s.
        exists "", (String c ext). cbn [append AdviceFiles.pop count_char].
        destruct (Ascii.eqb_spec "." c) as [He | _]; [now contradiction Hc|].
        cbn [Nat.add]. split; [reflexivity|]. split; [reflexivity|]. split; [exact Hext|].
        split; [reflexivity|]. intros H. now contradiction H.
      * cbn in Hlen. assert (Hnz : count_char "." s <> 0%nat) by lia.
        destruct (Hsome Hnz) as (p & ->).
        exists (String c (p ++ ".")), ext.
        split; [exact Hpop|]. split; [cbn; now rewrite <- Hs|].
        split; [exact Hext|]. cbn [Nat.add]. split; [intros H; now contradiction Hnz|].
        intros _. now exists (String c p).
Qed.

(** X24. The file type an attachment gets is the part of its name after the
    last dot: it contains no dot, and the name is a prefix followed by it,
    where the prefix is empty or ends with a dot. A name without any dot is
    taken whole as its own file type, and a name that ends with a dot gets
    the empty file type. *)
Theorem fileTypeOf_is_the_last_segment :
  forall name : string,
    let ext := AdviceFiles.fileTypeOf name in
    count_char "." ext = 0%nat
    /\ (exists pre, name = pre ++ ext /\ (pre = "" \/ exists p, pre = p ++ "."))
    /\ (count_char "." name = 0%nat -> ext = name)
    /\ (forall p, name = p ++ "." -> ext = "").
Proof.
  intros name ext.
  destruct (pop_split_decomposition name) as (pre & e & Hpop & Hs & Hext & Hnone & Hsome).
  assert (He : ext = e).
  { unfold ext, AdviceFiles.fileTypeOf. rewrite Hpop.
    destruct (String.eqb_spec e "") as [-> | _]; reflexivity. }
  rewrite He. split; [exact Hext|]. split; [|split].
  - exists pre. split; [exact Hs|].
    destruct (Nat.eq_dec (count_char "." name) 0) as [Hz | Hnz]; [left | right]; auto.
  - intros Hz. rewrite (Hnone Hz) in Hs. now rewrite Hs.
  - intros p Hp. rewrite Hp in Hs.
    assert (Hcount : forall a b, a ++ "." = b ++ e -> count_char "." e = 0%nat -> e = "").
    { clear. induction a as [|c a IH]; intros b Hab Hz.
      - destruct b as [|d b]; cbn in Hab.
        + now rewrite <- Hab in Hz.
        + injection Hab as _ Hab. destruct b; destruct e; try discriminate Hab; reflexivity.
      - destruct b as [|d b]; cbn in Hab.
        + rewrite <- Hab in Hz. cbn in Hz. rewrite count_char_app in Hz. cbn in Hz. lia.
        + injection Hab as _ Hab. now apply (IH b). }
    now apply (Hcount p pre).
Qed.

Example fileTypeOf_samples :
  AdviceFiles.fileTypeOf "umsogn.final.PDF" = "PDF"
  /\ AdviceFiles.fileTypeOf "README" = "README"
  /\ AdviceFiles.fileTypeOf "draft." = ""
  /\ AdviceFiles.fileTypeOf ".gitignore" = "gitignore"
  /\ AdviceFiles.fileTypeOf "" = "".
Proof. repeat split. Qed.

Lemma toAttachment_named (file : Json) :
  AdviceFiles.named_file file ->
  exists att, AdviceFiles.toAttachment file = Return att /\ AdviceFiles.attachment_of file att.
Proof.
  intros [Hnull (name & Hname)].
  exists (AdviceFiles.Attachment.mk (Js.prop file "id") name (AdviceFiles.fileTypeOf name)).
  split.
  - unfold AdviceFiles.toAttachment. rewrite Hname.
    destruct file; try reflexivity. now contradiction Hnull.
  - unfold AdviceFiles.attachment_of. cbn. auto.
Qed.

Lemma toAttachments_named (files : list Json) :
  Forall AdviceFiles.named_file files ->
  exists atts, array_map AdviceFiles.toAttachment files = Return atts
               /\ Forall2 AdviceFiles.attachment_of files atts.
Proof.
  induction 1 as [|file rest Hfile _ IH].
  - exists []. split; [reflexivity | constructor].
  - destruct (toAttachment_named file Hfile) as (att & Hatt & Hof).
    destruct IH as (atts & Hatts & Hall).
    exists (att :: atts). cbn [array_map]. rewrite Hatt, Hatts.
    split; [reflexivity | now constructor].
Qed.

(** X25. For an advice that is a record whose [adviceFiles] is an array of
    records with text names, [mapGraphQLAdviceToCaseComment] returns a
    comment for the given case with one attachment per file, in order, each
    with the file's name and id and the file type read off the name. The
    submitter name is copied as it is (also when it is missing), and a
    missing or empty body becomes the placeholder. *)
Theorem mapGraphQLAdvice_maps_files :
  forall (advice : Json) (caseId : Z) (files : list Json),
    advice <> JNull ->
    Js.prop advice "adviceFiles" = Some (JArr files) ->
    Forall AdviceFiles.named_file files ->
    exists c,
      AdviceFiles.mapGraphQLAdviceToCaseComment advice caseId = Return c
      /\ AdviceFiles.Comment.caseId c = caseId
      /\ AdviceFiles.Comment.contact c = Js.prop advice "participantName"
      /\ Forall2 AdviceFiles.attachment_of files (AdviceFiles.Comment.attachments c)
      /\ (Js.prop advice "content" = None \/ Js.prop advice "content" = Some JNull
          \/ Js.prop advice "content" = Some (JStr "") ->
          AdviceFiles.Comment.comment c = JStr NO_COMMENT_PLACEHOLDER).
Proof.
  intros advice caseId files Hnull Hfiles Hnamed.
  destruct (toAttachments_named files Hnamed) as (atts & Hatts & Hall).
  eexists. split.
  - unfold AdviceFiles.mapGraphQLAdviceToCaseComment. rewrite Hfiles, Hatts.
    destruct advice; try reflexivity. now contradiction Hnull.
  - cbn. split; [reflexivity|]. split; [reflexivity|]. split; [exact Hall|].
    intros [-> | [-> | ->]]; reflexivity.
Qed.

Lemma mapGraphQLAdvice_maps_files_witness :
  exists c,
    AdviceFiles.mapGraphQLAdviceToCaseComment
      (JObj [("id", JNum 7); ("adviceFiles", JArr [JObj [("id", JStr "f1"); ("name", JStr "umsogn.pdf")]])])
      42 = Return c
    /\ AdviceFiles.Comment.caseId c = 42
    /\ AdviceFiles.Comment.contact c = None
    /\ Forall2 AdviceFiles.attachment_of
         [JObj [("id", JStr "f1"); ("name", JStr "umsogn.pdf")]]
         (AdviceFiles.Comment.attachments c)
    /\ AdviceFiles.Comment.comment c = JStr NO_COMMENT_PLACEHOLDER.
Proof.
  destruct (mapGraphQLAdvice_maps_files
              (JObj [("id", JNum 7);
                     ("adviceFiles", JArr [JObj [("id", JStr "f1"); ("name", JStr "umsogn.pdf")]])])
              42 [JObj [("id", JStr "f1"); ("name", JStr "umsogn.pdf")]])
    as (c & Hc & Hid & Hcontact & Hfiles & Hcomment).
  - discriminate.
  - reflexivity.
  - constructor; [|constructor]. split; [discriminate | now exists "umsogn.pdf"].
  - exists c. repeat split; auto.
Defined.

(** X26. An advice without [adviceFiles] (as the records of the minimal
    comments query of [rssService.ts] are) makes
    [mapGraphQLAdviceToCaseComment] fail with a [TypeError], where the
    mapping of [rssService.ts] returns a comment with no attachments. *)
Theorem mapGraphQLAdvice_needs_adviceFiles :
  forall (advice : Json) (caseId : Z),
    advice <> JNull ->
    Js.prop advice "adviceFiles" = None \/ Js.prop advice "adviceFiles" = Some JNull ->
    (exists e, AdviceFiles.mapGraphQLAdviceToCaseComment advice caseId = Throw e
               /\ err_name e = "TypeError")
    /\ (exists c, toCaseComment caseId advice = Return c /\ CaseComment.attachments c = []).
Proof.
  intros advice caseId Hnull Hfiles. split.
  - unfold AdviceFiles.mapGraphQLAdviceToCaseComment.
    destruct advice; try (now contradiction Hnull);
      destruct Hfiles as [-> | ->]; eexists; split; reflexivity.
  - destruct advice; try (now contradiction Hnull); eexists; split; reflexivity.
Qed.

Lemma mapGraphQLAdvice_needs_adviceFiles_witness :
  (exists e, AdviceFiles.mapGraphQLAdviceToCaseComment signed_advice 42 = Throw e
             /\ err_name e = "TypeError")
  /\ (exists c, toCaseComment 42 signed_advice = Return c /\ CaseComment.attachments c = []).
Proof.
  apply (mapGraphQLAdvice_needs_adviceFiles signed_advice 42);
    [discriminate | left; reflexivity].
Defined.

(** ** Properties of the pure steps of [geminiService.ts] *)

Lemma str_app_assoc (a b c : string) : (a ++ b) ++ c = a ++ b ++ c.
Proof. induction a as [|x a IH]; cbn; congruence. Qed.

Lemma str_length_app (a b : string) :
  String.length (a ++ b) = (String.length a + String.length b)%nat.
Proof. induction a as [|x a IH]; cbn; congruence. Qed.

Lemma indexOf_Some (c : ascii) (s : string) (a : nat) :
  Gemini.indexOf c s = Some a ->
  exists pre post, s = pre ++ String c post /\ String.length pre = a /\ count_char c pre = 0%nat.
Proof.
  revert a. induction s as [|d s IH]; intros a H; [discriminate H|].
  cbn in H. destruct (Ascii.eqb_spec d c) as [-> | Hd].
  - injection H as <-. now exists "", s.
  - destruct (Gemini.indexOf c s) as [a'|]; [|discriminate H].
    injection H as <-. destruct (IH a' eq_refl) as (pre & post & -> & Hlen & Hcount).
    exists (String d pre), post. cbn.
    destruct (Ascii.eqb_spec c d) as [He | _]; [now contradiction Hd|].
    repeat split; auto.
Qed.

Lemma lastIndexOf_None (c : ascii) (s : string) :
  Gemini.lastIndexOf c s = None -> count_char c s = 0%nat.
Proof.
  induction s as [|d s IH]; [reflexivity|]. cbn.
  destruct (Gemini.lastIndexOf c s); [discriminate|].
  rewrite (Ascii.eqb_sym c d). destruct (Ascii.eqb d c); [discriminate|].
  intros _. now apply IH.
Qed.

Lemma lastIndexOf_Some (c : ascii) (s : string) (b : nat) :
  Gemini.lastIndexOf c s = Some b ->
  exists pre post, s = pre ++ String c post /\ String.length pre = b /\ count_char c post = 0%nat.
Proof.
  revert b. induction s as [|d s IH]; intros b H; [discriminate H|].
  cbn in H. destruct (Gemini.lastIndexOf c s) as [i|] eqn:Hlast.
  - injection H as <-. destruct (IH i eq_refl) as (pre & post & -> & Hlen & Hcount).
    exists (String d pre), post. cbn. auto.
  - destruct (Ascii.eqb_spec d c) as [-> | _]; [|discriminate H].
    injection H as <-. exists "", s. repeat split. now apply lastIndexOf_None.
Qed.

Lemma indexOf_present (c : ascii) (pre post : string) :
  exists a, Gemini.indexOf c (pre ++ String c post) = Some a /\ (a <= String.length pre)%nat.
Proof.
  induction pre as [|d pre (a & Ha & Hle)]; cbn.
  - rewrite Ascii.eqb_refl. exists 0%nat. split; [reflexivity | lia].
  - destruct (Ascii.eqb d c).
    + exists 0%nat. split; [reflexivity | lia].
    + rewrite Ha. exists (S a). split; [reflexivity | lia].
Qed.

Lemma lastIndexOf_present (c : ascii) (pre post : string) :
  exists b, Gemini.lastIndexOf c (pre ++ String c post) = Some b /\ (String.length pre <= b)%nat.
Proof.
  induction pre as [|d pre (b & Hb & Hle)]; cbn.
  - destruct (Gemini.lastIndexOf c post) as [i|].
    + exists (S i). split; [reflexivity | lia].
    + rewrite Ascii.eqb_refl. exists 0%nat. split; [reflexivity | lia].
  - rewrite Hb. exists (S b). split; [reflexivity | lia].
Qed.

Lemma str_app_split (p1 p2 x y : string) :
  p1 ++ x = p2 ++ y -> (String.length p1 <= String.length p2)%nat ->
  exists m, p2 = p1 ++ m /\ x = m ++ y.
Proof.
  revert p2. induction p1 as [|c p1 IH]; intros p2 H Hle.
  - exists p2. cbn in *. auto.
  - destruct p2 as [|d p2]; cbn in Hle; [lia|].
    cbn in H. injection H as -> H.
    destruct (IH p2 H ltac:(lia)) as (m & -> & ->). now exists m.
Qed.

Lemma substring_skip (pre s : string) (n : nat) :
  substring (String.length pre) n (pre ++ s) = substring 0 n s.
Proof. induction pre as [|c pre IH]; cbn; [reflexivity | exact IH]. Qed.

Lemma substring_prefix (e post : string) :
  substring 0 (String.length e) (e ++ post) = e.
Proof.
  induction e as [|c e IH]; cbn.
  - destruct post; reflexivity.
  - now rewrite IH.
Qed.

(** X27. The step of [analyzeAlthingiReviews] that looks for a JSON object
    keeps the text from the first opening brace to the last closing brace:
    when the answer contains an opening brace before a later closing brace,
    the text passed on starts with [{], ends with [}], and is the answer
    without a prefix free of [{] and a suffix free of [}]; nothing is
    logged. Otherwise the answer is passed on unchanged and the failure is
    logged. *)
Theorem extractJsonObject_keeps_the_outermost_braces :
  forall text : string,
    let result := fst (Gemini.extractJsonObject text) in
    let logged := snd (Gemini.extractJsonObject text) in
    (logged = false ->
     exists pre mid post,
       text = pre ++ result ++ post
       /\ result = "{" ++ mid ++ "}"
       /\ count_char "{" pre = 0%nat
       /\ count_char "}" post = 0%nat)
    /\ (logged = true ->
        result = text
        /\ forall pre mid post, text <> pre ++ "{" ++ mid ++ "}" ++ post).
Proof.
  intros text result logged. subst result logged. unfold Gemini.extractJsonObject.
  destruct (Gemini.indexOf "{" text) as [a|] eqn:Hfirst.
  - destruct (Gemini.lastIndexOf "}" text) as [b|] eqn:Hlast.
    + destruct (a <? b)%nat eqn:Hab; cbn [fst snd].
      * split; [intros _ | discriminate]. apply Nat.ltb_lt in Hab.
        destruct (indexOf_Some _ _ _ Hfirst) as (pre1 & post1 & H1 & Hlen1 & Hc1).
        destruct (lastIndexOf_Some _ _ _ Hlast) as (pre2 & post2 & H2 & Hlen2 & Hc2).
        assert (Heq : pre1 ++ String "{" post1 = pre2 ++ String "}" post2) by congruence.
        destruct (str_app_split _ _ _ _ Heq ltac:(lia)) as (m & Hm & Hx).
        assert (Hmlen : String.length m = (b - a)%nat).
        { rewrite Hm, str_length_app in Hlen2. lia. }
        destruct m as [|c mid]; [cbn in Hmlen; lia|].
        cbn in Hx. injection Hx as <- Hpost1.
        exists pre1, mid, post2.
        assert (Htext : text = pre1 ++ ("{" ++ mid ++ "}") ++ post2).
        { rewrite H1, Hpost1. cbn. now rewrite str_app_assoc. }
        assert (Hsub : substring a (b + 1 - a) text = "{" ++ mid ++ "}").
        { rewrite Htext at 1. rewrite <- Hlen1, substring_skip.
          replace (b + 1 - String.length pre1)%nat
            with (String.length ("{" ++ mid ++ "}")).
          - apply substring_prefix.
          - cbn. rewrite str_length_app. cbn in *. lia. }
        rewrite Hsub. auto.
      * split; [discriminate | intros _]. split; [reflexivity|].
        intros pre mid post Htext. apply Nat.ltb_ge in Hab.
        destruct (indexOf_present "{" pre (mid ++ "}" ++ post)) as (a' & Ha' & Hle).
        destruct (lastIndexOf_present "}" (pre ++ "{" ++ mid) post) as (b' & Hb' & Hge).
        rewrite str_app_assoc in Hb'. cbn in Ha', Hb'. cbn in Htext.
        rewrite <- Htext in Ha', Hb'.
        assert (a' = a) by congruence. assert (b' = b) by congruence. subst a' b'.
        rewrite str_length_app in Hge. cbn in Hge. lia.
    + cbn [fst snd]. split; [discriminate | intros _]. split; [reflexivity|].
      intros pre mid post Htext.
      destruct (lastIndexOf_present "}" (pre ++ "{" ++ mid) post) as (b' & Hb' & _).
      rewrite str_app_assoc in Hb'. cbn in Hb', Htext. congruence.
  - cbn [fst snd]. split; [discriminate | intros _]. split; [reflexivity|].
    intros pre mid post Htext.
    destruct (indexOf_present "{" pre (mid ++ "}" ++ post)) as (a' & Ha' & _).
    cbn in Ha', Htext. congruence.
Qed.

Example extractJsonObject_samples :
  Gemini.extractJsonObject "Here you go: {a:{b}} Thanks } bye" = ("{a:{b}} Thanks }", false)
  /\ Gemini.extractJsonObject "} no object here {" = ("} no object here {", true)
  /\ Gemini.extractJsonObject "plain text" = ("plain text", true).
Proof. repeat split. Qed.

Lemma sourcesOfChunk_shape (chunk : Json) :
  chunk <> JNull ->
  exists part,
    Gemini.sourcesOfChunk chunk = Return part
    /\ (List.length part <= 1)%nat
    /\ (part <> [] <-> Js.truthy (Js.opt_chain (Js.prop chunk "web") "uri") = true)
    /\ Forall (fun s => Some (Gemini.uri s) = Js.opt_chain (Js.prop chunk "web") "uri"
                        /\ Js.truthy (Some (Gemini.uri s)) = true
                        /\ Js.truthy (Some (Gemini.title s)) = true) part.
Proof.
  intros Hnull.
  assert (Hrun : Gemini.sourcesOfChunk chunk
                 = match Js.opt_chain (Js.prop chunk "web") "uri" with
                   | Some u =>
                       if Js.truthy (Some u) then
                         Return [Gemini.mkSource u
                                   (Js.or_else (Js.opt_chain (Js.prop chunk "web") "title") u)]
                       else Return []
                   | None => Return []
                   end).
  { destruct chunk; try reflexivity. now contradiction Hnull. }
  rewrite Hrun. destruct (Js.opt_chain (Js.prop chunk "web") "uri") as [u|].
  - destruct (Js.truthy (Some u)) eqn:Hu.
    + eexists. split; [reflexivity|]. split; [cbn; lia|].
      split; [split; [reflexivity | discriminate]|].
      constructor; [|constructor]. cbn [Gemini.uri Gemini.title].
      split; [reflexivity|]. split; [exact Hu|].
      unfold Js.or_else.
      destruct (Js.opt_chain (Js.prop chunk "web") "title") as [t|]; [|exact Hu].
      destruct (Js.truthy (Some t)) eqn:Ht; [exact Ht | exact Hu].
    + exists []. split; [reflexivity|]. split; [cbn; lia|].
      split; [split; [intros H; now contradiction H | discriminate] | constructor].
  - exists []. split; [reflexivity|]. split; [cbn; lia|].
    split; [split; [intros H; now contradiction H | discriminate] | constructor].
Qed.

Lemma sourcesOfChunk_exact (chunk : Json) :
  chunk <> JNull ->
  exists part,
    Gemini.sourcesOfChunk chunk = Return part
    /\ Forall2 source_of_chunk (if chunk_has_uri chunk then [chunk] else []) part.
Proof.
  intros Hnull.
  assert (Hrun : Gemini.sourcesOfChunk chunk
                 = match Js.opt_chain (Js.prop chunk "web") "uri" with
                   | Some u =>
                       if Js.truthy (Some u) then
                         Return [Gemini.mkSource u
                                   (Js.or_else (Js.opt_chain (Js.prop chunk "web") "title") u)]
                       else Return []
                   | None => Return []
                   end).
  { destruct chunk; try reflexivity. now contradiction Hnull. }
  rewrite Hrun. unfold chunk_has_uri.
  destruct (Js.opt_chain (Js.prop chunk "web") "uri") as [u|] eqn:Huri.
  - destruct (Js.truthy (Some u)) eqn:Hu.
    + eexists. split; [reflexivity|]. constructor; [|constructor].
      unfold source_of_chunk. cbn [Gemini.uri Gemini.title]. rewrite Huri.
      split; [reflexivity|]. unfold Js.or_else.
      destruct (Js.opt_chain (Js.prop chunk "web") "title") as [t|].
      * destruct (Js.truthy (Some t)); split; try discriminate; reflexivity.
      * split; [discriminate | reflexivity].
    + exists []. split; [reflexivity | constructor].
  - exists []. split; [reflexivity | constructor].
Qed.

(** X28. The grounding sources built by [searchAlthingi] and
    [analyzeAlthingiReviews] from chunks that are not [null] are, in order,
    one source for each chunk whose [web.uri] is truthy and none for the
    others: the source has the chunk's [uri], and as [title] the chunk's
    title when that is truthy and the [uri] otherwise. So there are at most
    as many sources as chunks, none when no chunk has a uri, and every
    source has a truthy [uri] and a truthy [title]. *)
Theorem toSources_are_displayable :
  forall chunks : list Json,
    Forall (fun chunk => chunk <> JNull) chunks ->
    exists sources,
      Gemini.toSources chunks = Return sources
      /\ Forall2 source_of_chunk (filter chunk_has_uri chunks) sources
      /\ (List.length sources <= List.length chunks)%nat
      /\ Forall (fun s => Js.truthy (Some (Gemini.uri s)) = true
                          /\ Js.truthy (Some (Gemini.title s)) = true) sources
      /\ (Forall (fun chunk => Js.truthy (Js.opt_chain (Js.prop chunk "web") "uri") = false) chunks
          -> sources = []).
Proof.
  intros chunks Hchunks. unfold Gemini.toSources.
  induction Hchunks as [|chunk rest Hchunk _ (sources & Hrun & Hexact & Hlen & Hall & Hnone)].
  - exists []. cbn. split; [reflexivity|]. split; [constructor|]. repeat split; auto.
  - destruct (sourcesOfChunk_shape chunk Hchunk) as (part & Hpart & Hle & Hiff & Hok).
    destruct (sourcesOfChunk_exact chunk Hchunk) as (part' & Hpart' & Hex).
    assert (part' = part) by congruence. subst part'.
    cbn [array_map]. rewrite Hpart.
    destruct (array_map Gemini.sourcesOfChunk rest) as [parts | e]; [|discriminate Hrun].
    injection Hrun as <-.
    exists (part ++ List.concat parts)%list. cbn [List.concat].
    split; [reflexivity|]. split.
    { cbn [filter]. destruct (chunk_has_uri chunk).
      - change (chunk :: filter chunk_has_uri rest)
          with ([chunk] ++ filter chunk_has_uri rest)%list.
        now apply Forall2_app.
      - inversion Hex. exact Hexact. }
    split; [rewrite length_app; cbn [List.length]; lia|].
    split.
    + apply Forall_app. split; [|exact Hall].
      eapply Forall_impl; [|exact Hok]. cbn. tauto.
    + intros Hfalse. inversion Hfalse as [|? ? Hhead Htail]; subst.
      rewrite (Hnone Htail), app_nil_r.
      destruct part as [|s part]; [reflexivity|].
      assert (Htrue : Js.truthy (Js.opt_chain (Js.prop chunk "web") "uri") = true)
        by (apply Hiff; discriminate).
      congruence.
Qed.

Lemma toSources_witness :
  exists sources,
    Gemini.toSources
      [JObj [("web", JObj [("uri", JStr "https://althingi.is/mal"); ("title", JStr "")])];
       JObj [("retrievedContext", JObj [])];
       JObj [("web", JObj [("uri", JStr "https://althingi.is/b"); ("title", JStr "B")])]]
    = Return sources
    /\ sources = [Gemini.mkSource (JStr "https://althingi.is/mal") (JStr "https://althingi.is/mal");
                  Gemini.mkSource (JStr "https://althingi.is/b") (JStr "B")]
    /\ Forall2 source_of_chunk
         [JObj [("web", JObj [("uri", JStr "https://althingi.is/mal"); ("title", JStr "")])];
          JObj [("web", JObj [("uri", JStr "https://althingi.is/b"); ("title", JStr "B")])]]
         sources.
Proof.
  destruct (toSources_are_displayable
              [JObj [("web", JObj [("uri", JStr "https://althingi.is/mal"); ("title", JStr "")])];
               JObj [("retrievedContext", JObj [])];
               JObj [("web", JObj [("uri", JStr "https://althingi.is/b"); ("title", JStr "B")])]])
    as (sources & Hrun & Hexact & _).
  - repeat constructor; discriminate.
  - exists sources. split; [exact Hrun|]. split; [|exact Hexact].
    cbn in Hrun. now injection Hrun as <-.
Defined.

(** ** Properties of the ordering of the case list *)



